(** * Zentrol: the gesture-logging backend, embedded and verified

    A shallow embedding of the Django application [gestures] (models,
    views, URL table, demo seeder) and of the start-up probe of
    [config/settings.py], followed by the properties that the written
    specification states about them.

    Conventions of the embedding.
    - Python [float] values are rationals ([Q]); rounding and the
      non-finite values are outside the model.  Python [int] values are
      integers ([Z]).  The database is the default one, SQLite: an integer
      column holds a signed 64-bit value and a larger parameter makes the
      statement raise [OverflowError]; the length of text is not checked.
    - A [str] is represented by its UTF-8 encoding; text that has none (an
      unpaired surrogate) is outside the model.
    - A [uuid.UUID] is represented by its canonical text, so [str] is the
      identity on it.  Every call of [uuid.uuid4] and every clock reading
      is an explicit input of the handler (record [Env]).
    - The relational store is a record of tables (lists of rows, oldest
      first).  Every statement commits on its own: the settings enable no
      request-wide transaction, so rows written before an exception stay.
    - Exceptions are values of type [exn]; handlers are state-passing
      functions over the store that either return or raise. *)

From Stdlib Require Import ZArith QArith Bool Ascii Sorted.
From stdpp Require Import gmap strings list fin_maps pretty.

Local Open Scope string_scope.
Local Open Scope list_scope.
Local Open Scope Z_scope.

(* ===================================================================== *)
(** * Part I: definitions                                                 *)
(* ===================================================================== *)

(** ** Exceptions and results *)

Inductive exn : Type :=
  | JSONDecodeError
  | UnicodeDecodeError
  | AttributeError
  | TypeError
  | ValueError
  | IntegrityError
  | DoesNotExist
  | MultipleObjectsReturned
  | ZeroDivisionError
  | OverflowError
  | OSError.

Inductive result (A : Type) : Type :=
  | Ok (a : A)
  | Raise (e : exn).
Arguments Ok {A} a.
Arguments Raise {A} e.

Definition result_bind {A B} (r : result A) (k : A -> result B) : result B :=
  match r with
  | Ok a => k a
  | Raise e => Raise e
  end.

Notation "x <- r ;; k" := (result_bind r (fun x => k))
  (at level 100, r at next level, right associativity).

(** ** gestures/models.py: SystemPerformance *)

Record SystemPerformance := {
  sp_id : string;
  sp_session : string;            (* foreign key: primary key of the session *)
  fps : Q;
  latency_ms : Q;
  cpu_usage : option Q;
  memory_usage_mb : option Q;
  false_positives : Z;
  false_negatives : Z;
  true_positives : Z;
  recorded_at : Z
}.

(** Python's [/] on two integers: the exact quotient, and
    [ZeroDivisionError] when the divisor is zero. *)
Definition truediv (a b : Z) : result Q :=
  if b =? 0 then Raise ZeroDivisionError
  else Ok (inject_Z a / inject_Z b)%Q.

(** [SystemPerformance.accuracy] *)
Definition accuracy (self : SystemPerformance) : result Q :=
  if true_positives self + false_positives self + false_negatives self =? 0
  then Ok 0%Q
  else truediv (true_positives self)
               (true_positives self + false_positives self + false_negatives self).

(** ** config/settings.py: is_serverless_environment *)

(** What the detection does to its environment, in the order it does it. *)
Inductive fs_op : Type :=
  | FsOpen (path : string)                (* open(path, 'w') *)
  | FsWrite (path data : string)          (* f.write(data) *)
  | FsClose (path : string)               (* leaving the [with] block *)
  | FsRemove (path : string).             (* os.remove(path) *)

Inductive step : Type :=
  | ReadEnv (name : string)
  | InspectBaseDir
  | FsCall (op : fs_op).

(** The file system as the probe sees it: [true] when the call returns,
    [false] when it raises [OSError] (of which [PermissionError] and
    [IOError] are a subclass and an alias). *)
Definition FileSystem := fs_op -> bool.

(** Computations that call the file system: a result and the calls made. *)
Definition Probe (A : Type) : Type := FileSystem -> result A * list step.

Definition probe_ret {A} (a : A) : Probe A := fun _ => (Ok a, []).

Definition probe_bind {A B} (c : Probe A) (k : A -> Probe B) : Probe B :=
  fun fs =>
    match c fs with
    | (Ok a, t1) => let '(r, t2) := k a fs in (r, t1 ++ t2)
    | (Raise e, t1) => (Raise e, t1)
    end.

Definition fs_call (op : fs_op) : Probe unit :=
  fun fs => (if fs op then Ok tt else Raise OSError, [FsCall op]).

(** [with open(path, 'w') as f: body]: the file is closed when the block
    is left, also when the body raised; an exception of the body or of the
    closing leaves the statement. *)
Definition with_open (path : string) (body : Probe unit) : Probe unit :=
  fun fs =>
    match fs_call (FsOpen path) fs with
    | (Raise e, t1) => (Raise e, t1)
    | (Ok _, t1) =>
        let '(r, t2) := body fs in
        let '(c, t3) := fs_call (FsClose path) fs in
        (match r, c with
         | Ok _, Ok _ => Ok tt
         | Ok _, Raise e => Raise e
         | Raise e, Ok _ => Raise e
         | Raise _, Raise e => Raise e
         end, t1 ++ t2 ++ t3)
    end.

(** [str.lower] on the characters that have a lower case in ASCII. *)
Definition lower_ascii (c : ascii) : ascii :=
  let n := nat_of_ascii c in
  if (Nat.leb 65 n && Nat.leb n 90)%bool then ascii_of_nat (n + 32) else c.

Fixpoint lower (s : string) : string :=
  match s with
  | EmptyString => EmptyString
  | String c s' => String (lower_ascii c) (lower s')
  end.

(** [needle in hay] on strings. *)
Fixpoint str_contains (needle hay : string) : bool :=
  if String.prefix needle hay then true
  else match hay with
       | EmptyString => false
       | String _ hay' => str_contains needle hay'
       end.

(** [BASE_DIR / name] *)
Definition path_join (base name : string) : string :=
  if String.eqb base "/" then base +:+ name else base +:+ "/" +:+ name.

Definition write_probe (BASE_DIR : string) : Probe unit :=
  let test_file_path := path_join BASE_DIR ".write_test" in
  probe_bind
    (with_open test_file_path (fs_call (FsWrite test_file_path "test")))
    (fun _ => fs_call (FsRemove test_file_path)).

Definition is_serverless_environment
    (environ : gmap string string) (BASE_DIR : string) (fs : FileSystem)
    : result bool * list step :=
  if String.eqb (lower (default "" (environ !! "VERCEL"))) "1" then
    (Ok true, [ReadEnv "VERCEL"])
  else if bool_decide (environ !! "AWS_LAMBDA_FUNCTION_NAME" ≠ None) then
    (Ok true, [ReadEnv "VERCEL"; ReadEnv "AWS_LAMBDA_FUNCTION_NAME"])
  else
    let base_dir_str := BASE_DIR in
    if (str_contains "/var/task" base_dir_str
        || str_contains "/var/runtime" base_dir_str)%bool then
      (Ok true,
       [ReadEnv "VERCEL"; ReadEnv "AWS_LAMBDA_FUNCTION_NAME"; InspectBaseDir])
    else
      let '(r, t) := write_probe BASE_DIR fs in
      (match r with
       | Ok _ => Ok false                  (* filesystem is writable *)
       | Raise OSError => Ok true          (* filesystem is read-only *)
       | Raise e => Raise e
       end,
       [ReadEnv "VERCEL"; ReadEnv "AWS_LAMBDA_FUNCTION_NAME"; InspectBaseDir] ++ t).

(** ** Python values *)

(** What [json.loads] returns. *)
#[local] Unset Elimination Schemes.
Inductive json : Type :=
  | JNull
  | JBool (b : bool)
  | JInt (z : Z)
  | JFloat (q : Q)
  | JStr (s : string)
  | JList (l : list json)
  | JDict (d : list (string * json)).
#[local] Set Elimination Schemes.

(** The body of a request, by what [json.loads] makes of it. *)
Inductive Body : Type :=
  | JsonText (v : json)     (* the text of the JSON value [v] *)
  | NotJson                 (* text that is no JSON value *)
  | NotText.                (* bytes that are no encoded text *)

Definition json_loads (b : Body) : result json :=
  match b with
  | JsonText v => Ok v
  | NotJson => Raise JSONDecodeError
  | NotText => Raise UnicodeDecodeError
  end.

(** [d[k]] on the items of a dict; [None] when the key is absent. *)
Fixpoint dict_lookup (d : list (string * json)) (k : string) : option json :=
  match d with
  | [] => None
  | (k', v) :: d' => if String.eqb k' k then Some v else dict_lookup d' k
  end.

(** [data.get(k, dflt)]: only a dict has the method. *)
Definition get (data : json) (k : string) (dflt : json) : result json :=
  match data with
  | JDict d => Ok (default dflt (dict_lookup d k))
  | _ => Raise AttributeError
  end.

(** The conversions of the interpreter that the model does not compute:
    [str] of a value that is no string, [float] and [int] of a string, and
    [float] of an integer beyond 2^53, which rounds or overflows. *)
Class Builtins := {
  str_of : json -> string;
  float_of_str : string -> option Q;   (* [None]: [ValueError] *)
  int_of_str : string -> option Z;     (* [None]: [ValueError] *)
  float_of_int : Z -> option Q         (* [None]: [OverflowError] *)
}.

(** An interpreter that takes no text for a number.  It serves to run the
    handlers on requests in which no such conversion happens. *)
Definition strict_builtins : Builtins := {|
  str_of := fun _ => "";
  float_of_str := fun _ => None;
  int_of_str := fun _ => None;
  float_of_int := fun _ => None
|}.

Definition Z_of_bool (b : bool) : Z := if b then 1 else 0.

(** Up to 2^53 in magnitude every integer is a [float]; beyond, [float]
    rounds. *)
Definition exact_float (z : Z) : bool := Z.abs z <=? 2 ^ 53.

(** The integers that an integer column of the database holds. *)
Definition int64 (z : Z) : bool := (- 2 ^ 63 <=? z) && (z <? 2 ^ 63).

(** [int(q)] rounds towards zero. *)
Definition Qtruncate (q : Q) : Z := Z.quot (Qnum q) (Z.pos (Qden q)).

(** ** The relational store *)

Record User := {
  user_pk : Z;
  username : string;
  email : string;
  is_staff : bool;
  password : string
}.

Record GestureLog := {
  id : string;
  user : option Z;
  session_id : string;
  gesture_type : string;
  confidence : Q;
  frame_count : Z;
  hand_x : option Q;
  hand_y : option Q;
  hand_z : option Q;
  detection_time_ms : Q;
  frame_processing_time_ms : Q;
  browser : string;
  user_agent : string;
  screen_resolution : string;
  created_at : Z
}.

Record PresentationSession := {
  ps_id : string;
  ps_user : option Z;
  ps_session_id : string;
  current_slide : Z;
  total_slides : Z;
  is_fullscreen : bool;
  is_presenting : bool;
  avg_latency_ms : Q;
  gesture_count : Z;
  started_at : Z;
  last_activity : Z;
  ended_at : option Z
}.

Record DB := {
  users : list User;
  gesture_logs : list GestureLog;
  sessions : list PresentationSession
}.

Definition set_gesture_logs (db : DB) (l : list GestureLog) : DB :=
  {| users := users db; gesture_logs := l; sessions := sessions db |}.

Definition set_sessions (db : DB) (l : list PresentationSession) : DB :=
  {| users := users db; gesture_logs := gesture_logs db; sessions := l |}.

Definition set_users (db : DB) (l : list User) : DB :=
  {| users := l; gesture_logs := gesture_logs db; sessions := sessions db |}.

(** The constraints the schema declares: primary keys, and
    [PresentationSession.session_id] with [unique=True]. *)
Definition db_ok (db : DB) : Prop :=
  NoDup (map id (gesture_logs db)) /\
  NoDup (map ps_id (sessions db)) /\
  NoDup (map ps_session_id (sessions db)).

(** What a request finds outside the store: the results of its calls of
    [uuid.uuid4] and its readings of the clock. *)
Record Env := {
  uuid4_view : string;      (* the call written in the view *)
  uuid4_pk : string;        (* the default of the [id] of a new row *)
  timezone_now : Z;         (* [auto_now] and [auto_now_add] *)
  datetime_now : Z          (* [datetime.now()] *)
}.

(** ** Computations on the store *)

Definition M (A : Type) : Type := DB -> result A * DB.

Definition ret {A} (a : A) : M A := fun db => (Ok a, db).

Definition raise {A} (e : exn) : M A := fun db => (Raise e, db).

Definition bind {A B} (c : M A) (k : A -> M B) : M B :=
  fun db =>
    match c db with
    | (Ok a, db') => k a db'
    | (Raise e, db') => (Raise e, db')
    end.

(** [try: c  except <handled>: h] *)
Definition try_except {A} (c : M A) (h : exn -> option (M A)) : M A :=
  fun db =>
    match c db with
    | (Ok a, db') => (Ok a, db')
    | (Raise e, db') =>
        match h e with
        | Some k => k db'
        | None => (Raise e, db')
        end
    end.

Definition lift {A} (r : result A) : M A := fun db => (r, db).

Notation "x <~ c ;; k" := (bind c (fun x => k))
  (at level 100, c at next level, right associativity).
Notation "c ;;; k" := (bind c (fun _ => k))
  (at level 100, right associativity).

(** ** The object-relational mapper, as far as the views use it *)

Section ORM.
Context `{Builtins}.

(** [float(v)] and [int(v)] *)
Definition py_float (v : json) : result Q :=
  match v with
  | JInt z =>
      if exact_float z then Ok (inject_Z z)
      else match float_of_int z with Some q => Ok q | None => Raise OverflowError end
  | JFloat q => Ok q
  | JBool b => Ok (inject_Z (Z_of_bool b))
  | JStr s => match float_of_str s with Some q => Ok q | None => Raise ValueError end
  | JNull | JList _ | JDict _ => Raise TypeError
  end.

Definition py_int (v : json) : result Z :=
  match v with
  | JInt z => Ok z
  | JFloat q => Ok (Qtruncate q)
  | JBool b => Ok (Z_of_bool b)
  | JStr s => match int_of_str s with Some z => Ok z | None => Raise ValueError end
  | JNull | JList _ | JDict _ => Raise TypeError
  end.

(** [Field.get_prep_value]: the value sent to the database for a column,
    [None] for SQL NULL. *)
Definition CharField_prep (v : json) : option string :=
  match v with
  | JNull => None
  | JStr s => Some s
  | _ => Some (str_of v)
  end.

Definition FloatField_prep (v : json) : result (option Q) :=
  match v with
  | JNull => Ok None
  | _ => q <- py_float v ;; Ok (Some q)
  end.

Definition IntegerField_prep (v : json) : result (option Z) :=
  match v with
  | JNull => Ok None
  | _ => z <- py_int v ;; Ok (Some z)
  end.

(** Binding an integer parameter: SQLite takes 64 bits. *)
Definition bind_integer (o : option Z) : result unit :=
  match o with
  | Some z => if int64 z then Ok tt else Raise OverflowError
  | None => Ok tt
  end.

(** A column declared without [null=True] refuses NULL. *)
Definition not_null {A} (o : option A) : result A :=
  match o with
  | Some a => Ok a
  | None => Raise IntegrityError
  end.

(** The keyword arguments of [GestureLog.objects.create]. *)
Record GestureLog_kwargs := {
  kw_user : option Z;
  kw_session_id : json;
  kw_gesture_type : json;
  kw_confidence : json;
  kw_frame_count : json;
  kw_hand_x : json;
  kw_hand_y : json;
  kw_hand_z : json;
  kw_detection_time_ms : json;
  kw_frame_processing_time_ms : json;
  kw_browser : json;
  kw_user_agent : json;
  kw_screen_resolution : json
}.

(** The row of an INSERT: the values are converted column by column, the
    parameters are bound, then the database checks the NOT NULL columns. *)
Definition GestureLog_row (env : Env) (kw : GestureLog_kwargs) : result GestureLog :=
  c <- FloatField_prep (kw_confidence kw) ;;
  n <- IntegerField_prep (kw_frame_count kw) ;;
  x <- FloatField_prep (kw_hand_x kw) ;;
  y <- FloatField_prep (kw_hand_y kw) ;;
  z <- FloatField_prep (kw_hand_z kw) ;;
  d <- FloatField_prep (kw_detection_time_ms kw) ;;
  p <- FloatField_prep (kw_frame_processing_time_ms kw) ;;
  _ <- bind_integer n ;;
  sid <- not_null (CharField_prep (kw_session_id kw)) ;;
  gt <- not_null (CharField_prep (kw_gesture_type kw)) ;;
  c' <- not_null c ;;
  n' <- not_null n ;;
  d' <- not_null d ;;
  p' <- not_null p ;;
  br <- not_null (CharField_prep (kw_browser kw)) ;;
  ua <- not_null (CharField_prep (kw_user_agent kw)) ;;
  sr <- not_null (CharField_prep (kw_screen_resolution kw)) ;;
  Ok {| id := uuid4_pk env; user := kw_user kw; session_id := sid;
        gesture_type := gt; confidence := c'; frame_count := n';
        hand_x := x; hand_y := y; hand_z := z;
        detection_time_ms := d'; frame_processing_time_ms := p';
        browser := br; user_agent := ua; screen_resolution := sr;
        created_at := timezone_now env |}.

Definition insert_gesture_log (row : GestureLog) : M GestureLog :=
  fun db =>
    if bool_decide (id row ∈ map id (gesture_logs db))
    then (Raise IntegrityError, db)
    else (Ok row, set_gesture_logs db (gesture_logs db ++ [row])).

(** [GestureLog.objects.create] with the keyword arguments [kw] *)
Definition GestureLog_objects_create (env : Env) (kw : GestureLog_kwargs)
    : M GestureLog :=
  row <~ lift (GestureLog_row env kw) ;;
  insert_gesture_log row.

(** [PresentationSession.objects.get(session_id=v)]; a lookup with [None]
    is the condition [session_id IS NULL], which no row meets. *)
Definition PresentationSession_objects_get (v : json) : M PresentationSession :=
  fun db =>
    match CharField_prep v with
    | None => (Raise DoesNotExist, db)
    | Some s =>
        match filter (fun r => ps_session_id r = s) (sessions db) with
        | [] => (Raise DoesNotExist, db)
        | [r] => (Ok r, db)
        | _ :: _ :: _ => (Raise MultipleObjectsReturned, db)
        end
    end.

(** The integer columns of a session hold its three counters. *)
Definition session_storable (r : PresentationSession) : bool :=
  int64 (current_slide r) && int64 (total_slides r) && int64 (gesture_count r).

(** [obj.save()] of a session: [last_activity] has [auto_now], so the
    clock of the database layer replaces whatever was assigned.  The row
    with the primary key of [obj] is rewritten; without such a row the
    object is inserted.  A counter beyond 64 bits makes either statement
    raise [OverflowError]. *)
Definition PresentationSession_save (env : Env) (obj : PresentationSession)
    : M unit :=
  fun db =>
    if negb (session_storable obj) then (Raise OverflowError, db) else
    let row := {| ps_id := ps_id obj; ps_user := ps_user obj;
                  ps_session_id := ps_session_id obj;
                  current_slide := current_slide obj;
                  total_slides := total_slides obj;
                  is_fullscreen := is_fullscreen obj;
                  is_presenting := is_presenting obj;
                  avg_latency_ms := avg_latency_ms obj;
                  gesture_count := gesture_count obj;
                  started_at := started_at obj;
                  last_activity := timezone_now env;
                  ended_at := ended_at obj |} in
    if bool_decide (ps_id obj ∈ map ps_id (sessions db)) then
      if bool_decide (Exists (fun r => ps_id r ≠ ps_id obj
                                       /\ ps_session_id r = ps_session_id obj)
                             (sessions db))
      then (Raise IntegrityError, db)
      else (Ok tt,
            set_sessions db
              (map (fun r => if decide (ps_id r = ps_id obj) then row else r)
                   (sessions db)))
    else
      if bool_decide (ps_session_id obj ∈ map ps_session_id (sessions db))
      then (Raise IntegrityError, db)
      else (Ok tt, set_sessions db (sessions db ++ [row])).

(** The [defaults] of [get_or_create]: the fields the callers set, the
    others keep the default of the model. *)
Record SessionDefaults := {
  d_user : option Z;
  d_total_slides : Z;
  d_is_presenting : bool;
  d_gesture_count : Z;
  d_avg_latency_ms : Q
}.

(** The row of a new session: the fields of [defaults], the defaults of
    the model for the others, both timestamps from the clock. *)
Definition new_session (env : Env) (s : string) (defaults : SessionDefaults)
    : PresentationSession :=
  {| ps_id := uuid4_pk env; ps_user := d_user defaults;
     ps_session_id := s;
     current_slide := 0;
     total_slides := d_total_slides defaults;
     is_fullscreen := false;
     is_presenting := d_is_presenting defaults;
     avg_latency_ms := d_avg_latency_ms defaults;
     gesture_count := d_gesture_count defaults;
     started_at := timezone_now env;
     last_activity := timezone_now env;
     ended_at := None |}.

(** [PresentationSession.objects.create(session_id=s, **defaults)] *)
Definition PresentationSession_objects_create
    (env : Env) (s : string) (defaults : SessionDefaults)
    : M PresentationSession :=
  fun db =>
    let row := new_session env s defaults in
    if bool_decide (ps_id row ∈ map ps_id (sessions db)
                    \/ s ∈ map ps_session_id (sessions db))
    then (Raise IntegrityError, db)
    else (Ok row, set_sessions db (sessions db ++ [row])).

(** [PresentationSession.objects.get_or_create(session_id=s, defaults=...)]:
    the object and whether it was created.  After a refused INSERT the
    lookup is tried once more before the refusal is raised again. *)
Definition PresentationSession_objects_get_or_create
    (env : Env) (s : string) (defaults : SessionDefaults)
    : M (PresentationSession * bool) :=
  try_except
    (obj <~ PresentationSession_objects_get (JStr s) ;; ret (obj, false))
    (fun e =>
       match e with
       | DoesNotExist =>
           Some (try_except
                   (obj <~ PresentationSession_objects_create env s defaults ;;
                    ret (obj, true))
                   (fun e' =>
                      match e' with
                      | IntegrityError =>
                          Some (try_except
                                  (obj <~ PresentationSession_objects_get (JStr s) ;;
                                   ret (obj, false))
                                  (fun e'' =>
                                     match e'' with
                                     | DoesNotExist => Some (raise IntegrityError)
                                     | _ => None
                                     end))
                      | _ => None
                      end))
       | _ => None
       end).

End ORM.

(** ** Requests and responses *)

Inductive Method : Type := GET_ | POST | PUT | PATCH | DELETE.

(** The writable fields of a log after the serializer of the REST
    resource accepted a payload ([serializer.validated_data]): a field is
    [None] when the payload leaves it out. *)
Record ValidatedData := {
  v_user : option (option Z);
  v_session_id : option string;
  v_gesture_type : option string;
  v_confidence : option Q;
  v_frame_count : option Z;
  v_hand_x : option (option Q);
  v_hand_y : option (option Q);
  v_hand_z : option (option Q);
  v_detection_time_ms : option Q;
  v_frame_processing_time_ms : option Q;
  v_browser : option string;
  v_user_agent : option string;
  v_screen_resolution : option string
}.

Record HttpRequest := {
  method : Method;
  GET : list (string * string);        (* the query string, in order *)
  body : Body;
  serializer_data : option ValidatedData;  (* [None]: a field refuses its value *)
  HTTP_USER_AGENT : option string;
  request_user : option Z              (* [None]: the anonymous user *)
}.

(** [QueryDict.get]: the last value given for the key. *)
Fixpoint QueryDict_get (q : list (string * string)) (k : string) : option string :=
  match q with
  | [] => None
  | (k', v) :: q' =>
      match QueryDict_get q' k with
      | Some v' => Some v'
      | None => if String.eqb k' k then Some v else None
      end
  end.

Definition is_authenticated (request : HttpRequest) : bool :=
  match request_user request with Some _ => true | None => false end.

Record Stats := {
  total_gestures : Z;
  gesture_types : gmap string Z;
  avg_confidence : Q;
  avg_latency : Q
}.

Inductive ResponseData : Type :=
  | ErrorData (error : string)          (* {'error': ...} *)
  | DetailData (detail : string)        (* {'detail': ...} *)
  | StatsData (stats : Stats)
  | LogData (row : GestureLog)
  | LogListData (rows : list GestureLog)
  | NoData.

Inductive HttpResponse : Type :=
  | JsonResponse (data : list (string * string)) (status : Z)
  | render (template_name : string) (context : list (string * json))
  | Response (data : ResponseData) (status : Z)
  | HttpResponseNotAllowed (permitted : list Method).

(** [str(e)], represented by the name of the class of [e]. *)
Definition str_exn (e : exn) : string :=
  match e with
  | JSONDecodeError => "JSONDecodeError"
  | UnicodeDecodeError => "UnicodeDecodeError"
  | AttributeError => "AttributeError"
  | TypeError => "TypeError"
  | ValueError => "ValueError"
  | IntegrityError => "IntegrityError"
  | DoesNotExist => "DoesNotExist"
  | MultipleObjectsReturned => "MultipleObjectsReturned"
  | ZeroDivisionError => "ZeroDivisionError"
  | OverflowError => "OverflowError"
  | OSError => "OSError"
  end.

(** ** gestures/views.py *)

Section Views.
Context `{Builtins}.

Definition home (request : HttpRequest) : M HttpResponse :=
  ret (render "home.html" [("demo_available", JBool true)]).

(** The [defaults] of the view: the user of the request, if it has one. *)
Definition view_defaults (request : HttpRequest) : SessionDefaults :=
  {| d_user := request_user request;
     d_total_slides := 0; d_is_presenting := false;
     d_gesture_count := 0; d_avg_latency_ms := 0%Q |}.

Definition presentation_view (env : Env) (request : HttpRequest) : M HttpResponse :=
  let sid := default (uuid4_view env) (QueryDict_get (GET request) "session_id") in
  sc <~ PresentationSession_objects_get_or_create env sid (view_defaults request) ;;
  ret (render "presentation.html"
         [("session_id", JStr sid);
          ("is_authenticated", JBool (is_authenticated request))]).

Definition test_view (request : HttpRequest) : M HttpResponse :=
  ret (render "test_mediapipe.html" []).

(** The decorators of [log_gesture]. *)
Definition require_POST (view : Env -> HttpRequest -> M HttpResponse)
    : Env -> HttpRequest -> M HttpResponse :=
  fun env request =>
    match method request with
    | POST => view env request
    | _ => ret (HttpResponseNotAllowed [POST])
    end.

Definition csrf_exempt (view : Env -> HttpRequest -> M HttpResponse)
    : Env -> HttpRequest -> M HttpResponse := view.

(** The block "Update session" of [log_gesture]. *)
Definition update_session (env : Env) (data : json) : M unit :=
  try_except
    (key <~ lift (get data "session_id" JNull) ;;
     session <~ PresentationSession_objects_get key ;;
     PresentationSession_save env
       {| ps_id := ps_id session; ps_user := ps_user session;
          ps_session_id := ps_session_id session;
          current_slide := current_slide session;
          total_slides := total_slides session;
          is_fullscreen := is_fullscreen session;
          is_presenting := is_presenting session;
          avg_latency_ms := avg_latency_ms session;
          gesture_count := gesture_count session + 1;
          started_at := started_at session;
          last_activity := datetime_now env;
          ended_at := ended_at session |})
    (fun e => match e with DoesNotExist => Some (ret tt) | _ => None end).

(** The statements of [log_gesture] under its outer [try]. *)
Definition log_gesture_try (env : Env) (request : HttpRequest) : M HttpResponse :=
  data <~ lift (json_loads (body request)) ;;
  a_session_id <~ lift (get data "session_id" (JStr "anonymous")) ;;
  a_gesture_type <~ lift (get data "gesture_type" (JStr "unknown")) ;;
  a_confidence <~ lift (get data "confidence" (JFloat 0)) ;;
  a_frame_count <~ lift (get data "frame_count" (JInt 1)) ;;
  a_hand_x <~ lift (get data "hand_x" JNull) ;;
  a_hand_y <~ lift (get data "hand_y" JNull) ;;
  a_hand_z <~ lift (get data "hand_z" JNull) ;;
  a_detection <~ lift (get data "detection_time_ms" (JFloat 0)) ;;
  a_processing <~ lift (get data "frame_processing_time_ms" (JFloat 0)) ;;
  a_browser <~ lift (get data "browser" (JStr "")) ;;
  a_resolution <~ lift (get data "screen_resolution" (JStr "")) ;;
  log <~ GestureLog_objects_create env
           {| kw_user := request_user request;
              kw_session_id := a_session_id;
              kw_gesture_type := a_gesture_type;
              kw_confidence := a_confidence;
              kw_frame_count := a_frame_count;
              kw_hand_x := a_hand_x;
              kw_hand_y := a_hand_y;
              kw_hand_z := a_hand_z;
              kw_detection_time_ms := a_detection;
              kw_frame_processing_time_ms := a_processing;
              kw_browser := a_browser;
              kw_user_agent := JStr (default "" (HTTP_USER_AGENT request));
              kw_screen_resolution := a_resolution |} ;;
  update_session env data ;;;
  ret (JsonResponse [("status", "success"); ("log_id", id log)] 200).

Definition log_gesture : Env -> HttpRequest -> M HttpResponse :=
  csrf_exempt (require_POST (fun env request =>
    try_except (log_gesture_try env request)
      (fun e =>
         match e with
         | JSONDecodeError =>
             Some (ret (JsonResponse [("status", "error");
                                      ("message", "Invalid JSON")] 400))
         | _ =>
             Some (ret (JsonResponse [("status", "error");
                                      ("message", str_exn e)] 500))
         end))).

(** *** GestureLogViewSet *)

(** [order_by('-created_at')]: newest first; rows of one instant keep
    their order. *)
Fixpoint insert_newest_first (x : GestureLog) (l : list GestureLog)
    : list GestureLog :=
  match l with
  | [] => [x]
  | y :: l' =>
      if created_at y <? created_at x then x :: y :: l'
      else y :: insert_newest_first x l'
  end.

Definition order_by_created_at_desc (l : list GestureLog) : list GestureLog :=
  foldr insert_newest_first [] l.

(** [queryset = GestureLog.objects.all().order_by('-created_at')] *)
Definition queryset (db : DB) : list GestureLog :=
  order_by_created_at_desc (gesture_logs db).

(** The loop that counts the gesture types. *)
Definition count_types (logs : list GestureLog) : gmap string Z :=
  fold_left
    (fun (m : gmap string Z) log =>
       <[gesture_type log := default 0 (m !! gesture_type log) + 1]> m)
    logs ∅.

(** [sum(...)]: from 0, left to right. *)
Definition py_sum (l : list Q) : Q := fold_left Qplus l 0%Q.

Definition session_stats (request : HttpRequest) : M HttpResponse :=
  fun db =>
    match QueryDict_get (GET request) "session_id" with
    | None | Some "" => (Ok (Response (ErrorData "session_id required") 400), db)
    | Some sid =>
        let logs := filter (fun r => session_id r = sid) (queryset db) in
        let total := Z.of_nat (length logs) in
        if 0 <? total then
          (Ok (Response (StatsData
                 {| total_gestures := total;
                    gesture_types := count_types logs;
                    avg_confidence :=
                      (py_sum (map confidence logs) / inject_Z total)%Q;
                    avg_latency :=
                      (py_sum (map detection_time_ms logs) / inject_Z total)%Q |})
                 200), db)
        else
          (Ok (Response (StatsData
                 {| total_gestures := total;
                    gesture_types := ∅;
                    avg_confidence := 0%Q;
                    avg_latency := 0%Q |})
                 200), db)
    end.

(** The actions that [ModelViewSet] gives the resource, and the one the
    class adds. *)
Inductive Action : Type :=
  | list_
  | create
  | retrieve (pk : string)
  | update (pk : string)
  | partial_update (pk : string)
  | destroy (pk : string)
  | session_stats_.

(** [get_object]: the row of the queryset with the primary key. *)
Definition get_object (pk : string) (db : DB) : option GestureLog :=
  head (filter (fun r => id r = pk) (queryset db)).

(** [setattr] for every validated field. *)
Definition apply_validated (v : ValidatedData) (r : GestureLog) : GestureLog :=
  {| id := id r;
     user := default (user r) (v_user v);
     session_id := default (session_id r) (v_session_id v);
     gesture_type := default (gesture_type r) (v_gesture_type v);
     confidence := default (confidence r) (v_confidence v);
     frame_count := default (frame_count r) (v_frame_count v);
     hand_x := default (hand_x r) (v_hand_x v);
     hand_y := default (hand_y r) (v_hand_y v);
     hand_z := default (hand_z r) (v_hand_z v);
     detection_time_ms := default (detection_time_ms r) (v_detection_time_ms v);
     frame_processing_time_ms :=
       default (frame_processing_time_ms r) (v_frame_processing_time_ms v);
     browser := default (browser r) (v_browser v);
     user_agent := default (user_agent r) (v_user_agent v);
     screen_resolution := default (screen_resolution r) (v_screen_resolution v);
     created_at := created_at r |}.

(** A new instance with the defaults of the model. *)
Definition new_gesture_log (env : Env) : GestureLog :=
  {| id := uuid4_pk env; user := None; session_id := ""; gesture_type := "";
     confidence := 0%Q; frame_count := 0;
     hand_x := None; hand_y := None; hand_z := None;
     detection_time_ms := 0%Q; frame_processing_time_ms := 0%Q;
     browser := ""; user_agent := ""; screen_resolution := "";
     created_at := timezone_now env |}.

(** [serializer.is_valid()]: the data the serializer accepts.  The fields
    of a [ModelSerializer] carry the validators of the columns, and an
    integer column takes 64 bits. *)
Definition validated_data (request : HttpRequest) : option ValidatedData :=
  match serializer_data request with
  | Some v =>
      match v_frame_count v with
      | Some z => if int64 z then Some v else None
      | None => Some v
      end
  | None => None
  end.

Definition perform (env : Env) (request : HttpRequest) (a : Action)
    : M HttpResponse :=
  match a with
  | list_ => fun db => (Ok (Response (LogListData (queryset db)) 200), db)
  | create =>
      match validated_data request with
      | None => ret (Response (DetailData "invalid") 400)
      | Some v =>
          row <~ insert_gesture_log (apply_validated v (new_gesture_log env)) ;;
          ret (Response (LogData row) 201)
      end
  | retrieve pk =>
      fun db =>
        match get_object pk db with
        | None => (Ok (Response (DetailData "No GestureLog matches the given query.") 404), db)
        | Some r => (Ok (Response (LogData r) 200), db)
        end
  | update pk | partial_update pk =>
      fun db =>
        match get_object pk db with
        | None => (Ok (Response (DetailData "No GestureLog matches the given query.") 404), db)
        | Some r =>
            match validated_data request with
            | None => (Ok (Response (DetailData "invalid") 400), db)
            | Some v =>
                let r' := apply_validated v r in
                (Ok (Response (LogData r') 200),
                 set_gesture_logs db
                   (map (fun x => if decide (id x = pk) then r' else x)
                        (gesture_logs db)))
            end
        end
  | destroy pk =>
      fun db =>
        match get_object pk db with
        | None => (Ok (Response (DetailData "No GestureLog matches the given query.") 404), db)
        | Some r =>
            (Ok (Response NoData 204),
             set_gesture_logs db
               (filter (fun x => id x ≠ pk) (gesture_logs db)))
        end
  | session_stats_ => session_stats request
  end.

(** [permission_classes = [permissions.IsAuthenticated]]: the action runs
    for an authenticated user only. *)
Definition GestureLogViewSet (a : Action) (env : Env) (request : HttpRequest)
    : M HttpResponse :=
  if is_authenticated request then perform env request a
  else ret (Response
              (DetailData "Authentication credentials were not provided.") 403).

End Views.

(** ** gestures/urls.py *)

Inductive Path : Type :=
  | path_home                       (* '' *)
  | path_presentation               (* 'presentation/' *)
  | path_log_gesture                (* 'api/log-gesture/' *)
  | path_gesture_logs               (* 'api/gesture-logs/' *)
  | path_session_stats              (* 'api/gesture-logs/session_stats/' *)
  | path_gesture_log (pk : string)  (* 'api/gesture-logs/<pk>/' *)
  | path_test.                      (* 'test/' *)

(** The routes of [DefaultRouter] for a registered [ModelViewSet]. *)
Definition router `{Builtins} (m : Method) (p : Path)
    : option (Env -> HttpRequest -> M HttpResponse) :=
  match p, m with
  | path_gesture_logs, GET_ => Some (GestureLogViewSet list_)
  | path_gesture_logs, POST => Some (GestureLogViewSet create)
  | path_session_stats, GET_ => Some (GestureLogViewSet session_stats_)
  | path_gesture_log pk, GET_ => Some (GestureLogViewSet (retrieve pk))
  | path_gesture_log pk, PUT => Some (GestureLogViewSet (update pk))
  | path_gesture_log pk, PATCH => Some (GestureLogViewSet (partial_update pk))
  | path_gesture_log pk, DELETE => Some (GestureLogViewSet (destroy pk))
  | _, _ => None
  end.

Definition urlpatterns `{Builtins} (m : Method) (p : Path)
    : option (Env -> HttpRequest -> M HttpResponse) :=
  match p with
  | path_home => Some (fun _ => home)
  | path_presentation => Some presentation_view
  | path_log_gesture => Some log_gesture
  | path_test => Some (fun _ => test_view)
  | _ => router m p
  end.

(** ** gestures/management/commands/setup_demo.py *)

(** What one turn of the loop draws from [random], with the identifier and
    the clock of its INSERT. *)
Record Sample := {
  r_gesture : nat;
  r_confidence : Q;
  r_frame_count : Z;
  r_detection : Q;
  r_processing : Q;
  r_browser : nat;
  r_resolution : nat;
  r_env : Env
}.

(** [random.choice(l)] with the index drawn. *)
Definition choice (l : list string) (i : nat) : string :=
  default "" (l !! (i mod length l)%nat).

(** [for x in l: body] *)
Fixpoint for_each {A} (l : list A) (body : A -> M unit) : M unit :=
  match l with
  | [] => ret tt
  | x :: l' => body x ;;; for_each l' body
  end.

(** [User.objects.get_or_create(username=..., defaults=...)]; the key of a
    new user follows the largest one. *)
Definition User_objects_get_or_create
    (name mail : string) (staff : bool) : M (User * bool) :=
  fun db =>
    match filter (fun u => username u = name) (users db) with
    | [] =>
        let u := {| user_pk := 1 + foldr Z.max 0 (map user_pk (users db));
                    username := name; email := mail; is_staff := staff;
                    password := "" |} in
        (Ok (u, true), set_users db (users db ++ [u]))
    | [u] => (Ok (u, false), db)
    | _ :: _ :: _ => (Raise MultipleObjectsReturned, db)
    end.

(** [user.set_password(raw); user.save()]; the stored text stands for the
    hash of [raw]. *)
Definition User_set_password_save (u : User) (raw : string) : M unit :=
  fun db =>
    (Ok tt,
     set_users db
       (map (fun x => if decide (user_pk x = user_pk u)
                      then {| user_pk := user_pk x; username := username u;
                              email := email u; is_staff := is_staff u;
                              password := "hash:" +:+ raw |}
                      else x)
            (users db))).

Definition gestures : list string :=
  ["thumbs_up"; "fist"; "open_palm"; "victory"; "ok"].

Definition handle `{Builtins} (env : Env) (samples : nat -> Sample) : M unit :=
  uc <~ User_objects_get_or_create "demo" "demo@example.com" true ;;
  (if snd uc then User_set_password_save (fst uc) "demo123" else ret tt) ;;;
  sc <~ PresentationSession_objects_get_or_create env "demo-session-001"
          {| d_user := Some (user_pk (fst uc));
             d_total_slides := 5; d_is_presenting := true;
             d_gesture_count := 0; d_avg_latency_ms := (171 # 2)%Q |} ;;
  let session := fst sc in
  for_each (seq 0 50)
    (fun i =>
       let s := samples i in
       GestureLog_objects_create (r_env s)
         {| kw_user := Some (user_pk (fst uc));
            kw_session_id := JStr (ps_session_id session);
            kw_gesture_type := JStr (choice gestures (r_gesture s));
            kw_confidence := JFloat (r_confidence s);
            kw_frame_count := JInt (r_frame_count s);
            kw_hand_x := JNull; kw_hand_y := JNull; kw_hand_z := JNull;
            kw_detection_time_ms := JFloat (r_detection s);
            kw_frame_processing_time_ms := JFloat (r_processing s);
            kw_browser := JStr (choice ["Chrome"; "Firefox"; "Safari"] (r_browser s));
            kw_user_agent := JStr "";
            kw_screen_resolution :=
              JStr (choice ["1920x1080"; "1440x900"; "1366x768"] (r_resolution s)) |} ;;;
       ret tt) ;;;
  PresentationSession_save env
    {| ps_id := ps_id session; ps_user := ps_user session;
       ps_session_id := ps_session_id session;
       current_slide := current_slide session;
       total_slides := total_slides session;
       is_fullscreen := is_fullscreen session;
       is_presenting := is_presenting session;
       avg_latency_ms := avg_latency_ms session;
       gesture_count := 50;
       started_at := started_at session;
       last_activity := last_activity session;
       ended_at := ended_at session |}.

(** ** The detection as the specification words it *)

(** The four checks, in the order of the specification. *)
Inductive check : Type :=
  | PlatformMarker        (* VERCEL equals "1" *)
  | FunctionName          (* AWS_LAMBDA_FUNCTION_NAME is set *)
  | ReadOnlyPath          (* the base directory names /var/task or /var/runtime *)
  | WriteAndDelete.       (* the probe *)

Definition checks_in_order : list check :=
  [PlatformMarker; FunctionName; ReadOnlyPath; WriteAndDelete].

(** The probe succeeds when each of its four calls returns. *)
Definition probe_succeeds (BASE_DIR : string) (fs : FileSystem) : bool :=
  let p := path_join BASE_DIR ".write_test" in
  (fs (FsOpen p) && fs (FsWrite p "test") && fs (FsClose p) && fs (FsRemove p))%bool.

Definition positive (environ : gmap string string) (BASE_DIR : string)
    (fs : FileSystem) (c : check) : bool :=
  match c with
  | PlatformMarker => bool_decide (environ !! "VERCEL" = Some "1")
  | FunctionName => bool_decide (is_Some (environ !! "AWS_LAMBDA_FUNCTION_NAME"))
  | ReadOnlyPath =>
      (str_contains "/var/task" BASE_DIR || str_contains "/var/runtime" BASE_DIR)%bool
  | WriteAndDelete => negb (probe_succeeds BASE_DIR fs)
  end.

(** Evaluate the checks one after the other and stop at the first positive
    one: the verdict and the checks that were evaluated. *)
Fixpoint first_positive (pos : check -> bool) (l : list check) : bool * list check :=
  match l with
  | [] => (false, [])
  | c :: l' =>
      if pos c then (true, [c])
      else let '(b, t) := first_positive pos l' in (b, c :: t)
  end.

(** The checks that a trace of the detection shows; the calls of the probe
    count once. *)
Fixpoint checks_of_trace (t : list step) : list check :=
  match t with
  | [] => []
  | ReadEnv name :: t' =>
      (if String.eqb name "VERCEL" then PlatformMarker else FunctionName)
        :: checks_of_trace t'
  | InspectBaseDir :: t' => ReadOnlyPath :: checks_of_trace t'
  | FsCall _ :: _ => [WriteAndDelete]
  end.

(** ** The aggregates as the specification words them *)






(** ** The ingestion endpoint as the specification words it *)





(** The value provided for a field, or the documented default. *)
Definition provided_or (d : list (string * json)) (k : string) (dflt : json) : json :=
  default dflt (dict_lookup d k).

Definition as_text (v : json) : string :=
  match v with JStr s => s | _ => "" end.

Definition as_optional_number (v : json) : option Q :=
  match v with
  | JInt z => Some (inject_Z z)
  | JFloat q => Some q
  | _ => None
  end.

Definition as_number (v : json) : Q := default 0%Q (as_optional_number v).

Definition as_integer (v : json) : Z :=
  match v with JInt z => z | _ => 0 end.

(** The row that the specification promises for a body. *)
Definition documented_log (env : Env) (request : HttpRequest)
    (d : list (string * json)) : GestureLog :=
  {| id := uuid4_pk env;
     user := request_user request;
     session_id := as_text (provided_or d "session_id" (JStr "anonymous"));
     gesture_type := as_text (provided_or d "gesture_type" (JStr "unknown"));
     confidence := as_number (provided_or d "confidence" (JFloat 0));
     frame_count := as_integer (provided_or d "frame_count" (JInt 1));
     hand_x := as_optional_number (provided_or d "hand_x" JNull);
     hand_y := as_optional_number (provided_or d "hand_y" JNull);
     hand_z := as_optional_number (provided_or d "hand_z" JNull);
     detection_time_ms := as_number (provided_or d "detection_time_ms" (JFloat 0));
     frame_processing_time_ms :=
       as_number (provided_or d "frame_processing_time_ms" (JFloat 0));
     browser := as_text (provided_or d "browser" (JStr ""));
     user_agent := default "" (HTTP_USER_AGENT request);
     screen_resolution := as_text (provided_or d "screen_resolution" (JStr ""));
     created_at := timezone_now env |}.

(** The keyword arguments that [log_gesture] hands to the mapper for the
    dict [d]. *)
Definition log_kwargs (request : HttpRequest) (d : list (string * json))
    : GestureLog_kwargs :=
  {| kw_user := request_user request;
     kw_session_id := provided_or d "session_id" (JStr "anonymous");
     kw_gesture_type := provided_or d "gesture_type" (JStr "unknown");
     kw_confidence := provided_or d "confidence" (JFloat 0);
     kw_frame_count := provided_or d "frame_count" (JInt 1);
     kw_hand_x := provided_or d "hand_x" JNull;
     kw_hand_y := provided_or d "hand_y" JNull;
     kw_hand_z := provided_or d "hand_z" JNull;
     kw_detection_time_ms := provided_or d "detection_time_ms" (JFloat 0);
     kw_frame_processing_time_ms :=
       provided_or d "frame_processing_time_ms" (JFloat 0);
     kw_browser := provided_or d "browser" (JStr "");
     kw_user_agent := JStr (default "" (HTTP_USER_AGENT request));
     kw_screen_resolution := provided_or d "screen_resolution" (JStr "") |}.

(** A session after one more gesture at the clock reading [now]. *)
Definition bump (now : Z) (r : PresentationSession) : PresentationSession :=
  {| ps_id := ps_id r; ps_user := ps_user r;
     ps_session_id := ps_session_id r;
     current_slide := current_slide r;
     total_slides := total_slides r;
     is_fullscreen := is_fullscreen r;
     is_presenting := is_presenting r;
     avg_latency_ms := avg_latency_ms r;
     gesture_count := gesture_count r + 1;
     started_at := started_at r;
     last_activity := now;
     ended_at := ended_at r |}.

Definition success (log_id : string) : result HttpResponse :=
  Ok (JsonResponse [("status", "success"); ("log_id", log_id)] 200).

Definition server_error (e : exn) : result HttpResponse :=
  Ok (JsonResponse [("status", "error"); ("message", str_exn e)] 500).

Definition bad_request : result HttpResponse :=
  Ok (JsonResponse [("status", "error"); ("message", "Invalid JSON")] 400).

(** The session id under which [log_gesture] looks the session up. *)
Definition session_key `{Builtins} (d : list (string * json)) : option string :=
  CharField_prep (provided_or d "session_id" JNull).

(** A session that takes one more gesture: its counters, the count after
    the increment among them, fit their columns. *)
Definition countable (r : PresentationSession) : bool :=
  int64 (current_slide r) && int64 (total_slides r)
  && int64 (gesture_count r + 1).

(** The session that the body [d] names is at the end of its counter. *)
Definition count_overflows `{Builtins} (d : list (string * json)) (db : DB)
    : Prop :=
  Exists (fun r => session_key d = Some (ps_session_id r)
                   /\ countable r = false)
         (sessions db).

(** ** Sample data *)

Definition sample_env : Env :=
  {| uuid4_view := "3f2b8c1e-5d47-4a90-9c1b-7e6f0a1d2c3b";
     uuid4_pk := "9a8b7c6d-1e2f-4a3b-8c4d-5e6f7a8b9c0d";
     timezone_now := 1700000060;
     datetime_now := 1700000060 |}.

Definition sample_session (pk sid : string) (count : Z) : PresentationSession :=
  {| ps_id := pk; ps_user := None; ps_session_id := sid;
     current_slide := 0; total_slides := 0;
     is_fullscreen := false; is_presenting := false;
     avg_latency_ms := 0%Q; gesture_count := count;
     started_at := 1700000000; last_activity := 1700000000;
     ended_at := None |}.

Definition sample_log (pk sid ty : string) (conf lat : Q) (at_ : Z) : GestureLog :=
  {| id := pk; user := None; session_id := sid; gesture_type := ty;
     confidence := conf; frame_count := 1;
     hand_x := None; hand_y := None; hand_z := None;
     detection_time_ms := lat; frame_processing_time_ms := 0%Q;
     browser := ""; user_agent := ""; screen_resolution := "";
     created_at := at_ |}.

(** One user, two sessions, one of them with the id "anonymous", and three
    logs. *)
Definition sample_db : DB :=
  {| users := [{| user_pk := 1; username := "demo"; email := "demo@example.com";
                  is_staff := true; password := "hash:demo123" |}];
     gesture_logs :=
       [sample_log "log-1" "s1" "fist" (1 # 2) 80 1700000010;
        sample_log "log-2" "s1" "ok" (3 # 4) 100 1700000020;
        sample_log "log-3" "s1" "fist" (1 # 4) 120 1700000030];
     sessions :=
       [sample_session "pk-1" "s1" 3;
        sample_session "pk-2" "anonymous" 5] |}.

Definition sample_request (m : Method) (query : list (string * string)) (b : Body)
    : HttpRequest :=
  {| method := m; GET := query; body := b; serializer_data := None;
     HTTP_USER_AGENT := Some "Mozilla/5.0"; request_user := None |}.

(** A body that provides three fields, one that provides none of the
    session, and two that the endpoint does not log. *)
Definition body_of_s1 : list (string * json) :=
  [("session_id", JStr "s1"); ("gesture_type", JStr "fist");
   ("confidence", JFloat (9 # 10))].

Definition body_without_session : list (string * json) :=
  [("gesture_type", JStr "ok"); ("frame_count", JInt 7)].

Definition body_with_null_confidence : list (string * json) :=
  [("session_id", JStr "s1"); ("confidence", JNull)].


(** The sample store with the counter of session "s1" at its last value. *)
Definition sample_db_full : DB :=
  set_sessions sample_db
    [sample_session "pk-1" "s1" (2 ^ 63 - 1);
     sample_session "pk-2" "anonymous" 5].

(** ** The life of a log row *)

(** From [db] to [db'] the table of logs only grew: the rows of [db] are
    all there, unchanged and in their order, followed by the new ones. *)
Definition appends (db db' : DB) : Prop :=
  exists new, gesture_logs db' = gesture_logs db ++ new.

(** A computation that, whatever it returns or raises, only adds logs. *)
Definition append_only {A} (c : M A) : Prop :=
  forall db, appends db (snd (c db)).

(** A request of a logged-in user. *)
Definition sample_request_as (uid : Z) (m : Method) (v : option ValidatedData)
    : HttpRequest :=
  {| method := m; GET := []; body := NotJson; serializer_data := v;
     HTTP_USER_AGENT := Some "Mozilla/5.0"; request_user := Some uid |}.

(** A payload that sets the confidence and nothing else. *)
Definition only_confidence (q : Q) : ValidatedData :=
  {| v_user := None; v_session_id := None; v_gesture_type := None;
     v_confidence := Some q; v_frame_count := None;
     v_hand_x := None; v_hand_y := None; v_hand_z := None;
     v_detection_time_ms := None; v_frame_processing_time_ms := None;
     v_browser := None; v_user_agent := None; v_screen_resolution := None |}.

(** ** gestures/serializers.py *)

(** [PresentationSessionSerializer.get_duration], in the unit of the
    clock; a [datetime] is true, so the first branch is taken exactly when
    [ended_at] is set. *)
Definition get_duration (obj : PresentationSession) : Z :=
  match ended_at obj with
  | Some ended => ended - started_at obj
  | None => last_activity obj - started_at obj
  end.

(** ** config/settings.py: the database path and the logging handlers *)

Record Handler := {
  h_class : string;
  h_filename : option string;
  h_formatter : string
}.

Definition console_handler : Handler :=
  {| h_class := "logging.StreamHandler"; h_filename := None;
     h_formatter := "verbose" |}.

Definition file_handler (log_file : string) : Handler :=
  {| h_class := "logging.FileHandler"; h_filename := Some log_file;
     h_formatter := "verbose" |}.

(** [db_path] *)
Definition db_path (IS_SERVERLESS : bool) (BASE_DIR : string) : string :=
  if IS_SERVERLESS then "/tmp/db.sqlite3" else path_join BASE_DIR "db.sqlite3".

(** The default of [DATABASES], as the URL that [env.db] parses. *)
Definition database_url (environ : gmap string string)
    (IS_SERVERLESS : bool) (BASE_DIR : string) : string :=
  default ("sqlite:///" +:+ db_path IS_SERVERLESS BASE_DIR)
          (environ !! "DATABASE_URL").

(** The block that adds the file handler.  [can_append path] tells whether
    [with open(path, 'a'): pass] returns; otherwise it raises [OSError],
    which the block swallows. *)
Definition add_file_handler (IS_SERVERLESS DEBUG : bool) (BASE_DIR : string)
    (can_append : string -> bool) (logging_handlers : gmap string Handler)
    : gmap string Handler :=
  if (negb IS_SERVERLESS && DEBUG)%bool then
    let log_file := path_join BASE_DIR "gestures.log" in
    if can_append log_file
    then <["file" := file_handler log_file]> logging_handlers
    else logging_handlers
  else logging_handlers.

(** The "final safety check". *)
Definition final_safety_check (IS_SERVERLESS : bool)
    (logging_handlers : gmap string Handler) : gmap string Handler :=
  if (IS_SERVERLESS && bool_decide (is_Some (logging_handlers !! "file")))%bool
  then delete "file" logging_handlers
  else logging_handlers.

Definition logging_handlers (IS_SERVERLESS DEBUG : bool) (BASE_DIR : string)
    (can_append : string -> bool) : gmap string Handler :=
  final_safety_check IS_SERVERLESS
    (add_file_handler IS_SERVERLESS DEBUG BASE_DIR can_append
       {["console" := console_handler]}).

Definition root_handlers (handlers : gmap string Handler) : list string :=
  "console" :: (if bool_decide (is_Some (handlers !! "file")) then ["file"] else []).

(** What the module computes at start-up, given the value of [DEBUG]. *)
Record Settings := {
  IS_SERVERLESS : bool;
  DATABASE : string;
  LOGGING_handlers : gmap string Handler;
  LOGGING_root_handlers : list string
}.

Definition settings (environ : gmap string string) (BASE_DIR : string)
    (fs : FileSystem) (can_append : string -> bool) (DEBUG : bool)
    : result Settings :=
  serverless <- fst (is_serverless_environment environ BASE_DIR fs) ;;
  let handlers := logging_handlers serverless DEBUG BASE_DIR can_append in
  Ok {| IS_SERVERLESS := serverless;
        DATABASE := database_url environ serverless BASE_DIR;
        LOGGING_handlers := handlers;
        LOGGING_root_handlers := root_handlers handlers |}.

(** ** Orders and sums used in the statements *)

(** [a] is not older than [b]. *)
Definition newer_or_same (a b : GestureLog) : Prop :=
  created_at b <= created_at a.

(** The sum of the counts of a dictionary. *)
Definition total_count (m : gmap string Z) : Z :=
  map_fold (fun _ n acc => n + acc) 0 m.

(** A performance sample with three hits and one false alarm. *)
Definition sample_performance : SystemPerformance :=
  {| sp_id := "perf-1"; sp_session := "pk-1";
     fps := 30%Q; latency_ms := 85%Q;
     cpu_usage := None; memory_usage_mb := None;
     false_positives := 1; false_negatives := 0; true_positives := 3;
     recorded_at := 1700000040 |}.

(** A file system on which every call returns, and one that is read-only. *)
Definition writable_fs : FileSystem := fun _ => true.

Definition read_only_fs : FileSystem := fun _ => false.

(** The same environment with another reading of [datetime.now()]. *)
Definition with_datetime_now (env : Env) (t : Z) : Env :=
  {| uuid4_view := uuid4_view env; uuid4_pk := uuid4_pk env;
     timezone_now := timezone_now env; datetime_now := t |}.

(** Whether a value is a JSON object. *)
Definition is_object (b : Body) : bool :=
  match b with JsonText (JDict _) => true | _ => false end.

#[global] Instance Method_eq_dec : EqDecision Method.
Proof. solve_decision. Defined.

(** A computation that keeps the constraints of the schema, whatever it
    returns or raises. *)
Definition keeps_ok {A} (c : M A) : Prop :=
  forall db, db_ok db -> db_ok (snd (c db)).

(** ** The demo data as the seeder writes it *)

(** The log of one turn of the loop, for the user with key [uid]. *)
Definition seed_log (uid : Z) (s : Sample) : GestureLog :=
  {| id := uuid4_pk (r_env s); user := Some uid;
     session_id := "demo-session-001";
     gesture_type := choice gestures (r_gesture s);
     confidence := r_confidence s; frame_count := r_frame_count s;
     hand_x := None; hand_y := None; hand_z := None;
     detection_time_ms := r_detection s;
     frame_processing_time_ms := r_processing s;
     browser := choice ["Chrome"; "Firefox"; "Safari"] (r_browser s);
     user_agent := "";
     screen_resolution :=
       choice ["1920x1080"; "1440x900"; "1366x768"] (r_resolution s);
     created_at := timezone_now (r_env s) |}.

(** Draws whose generated identifiers are "seed-0", "seed-1", ... *)
Definition sample_draws (i : nat) : Sample :=
  {| r_gesture := i; r_confidence := (4 # 5)%Q; r_frame_count := 7;
     r_detection := 90%Q; r_processing := 20%Q;
     r_browser := i; r_resolution := i;
     r_env := {| uuid4_view := ""; uuid4_pk := "seed-" +:+ pretty i;
                 timezone_now := 1700000100; datetime_now := 1700000100 |} |}.

(* ===================================================================== *)
(** * Part II: properties                                                 *)
(* ===================================================================== *)

(** ** SystemPerformance.accuracy *)

(** C8. For every performance record, [accuracy] returns
    TP / (TP + FP + FN); when that denominator is zero it returns 0 and the
    division, which would raise there, is not performed: [accuracy] raises
    for no record. *)
Theorem accuracy_never_divides_by_zero (self : SystemPerformance) :
  let d := true_positives self + false_positives self + false_negatives self in
  accuracy self
    = Ok (if d =? 0 then 0 else inject_Z (true_positives self) / inject_Z d)%Q
  /\ (d = 0 <-> truediv (true_positives self) d = Raise ZeroDivisionError)
  /\ forall e, accuracy self <> Raise e.
Proof.
  cbv zeta. unfold accuracy, truediv.
  destruct (Z.eqb_spec
    (true_positives self + false_positives self + false_negatives self) 0)
    as [E | E].
  - repeat split; try congruence.
  - repeat split; try congruence.
Qed.

(** ** is_serverless_environment *)

Lemma lower_ascii_one (c : ascii) : lower_ascii c = "1"%char <-> c = "1"%char.
Proof.
  split; [| intros ->; reflexivity].
  destruct c as [[] [] [] [] [] [] [] []]; vm_compute; congruence.
Qed.

Lemma lower_is_one (s : string) : lower s = "1" <-> s = "1".
Proof.
  split; [| intros ->; reflexivity].
  destruct s as [| c [| c' s']]; simpl; try discriminate.
  intros E. injection E as E. apply (proj1 (lower_ascii_one c)) in E. by subst.
Qed.

Lemma prefix_app (n h : string) :
  String.prefix n h = true <-> exists b, h = n +:+ b.
Proof.
  revert h. induction n as [| c n IH]; intros h; simpl.
  - split; [intros _; by exists h | intros _; by destruct h].
  - destruct h as [| c' h]; simpl.
    + split; [done | intros [b E]; discriminate].
    + destruct (Ascii.ascii_dec c c') as [-> | Hne].
      * rewrite IH. split; intros [b E]; exists b.
        -- by rewrite E.
        -- by injection E.
      * split; [done | intros [b E]; by injection E].
Qed.

Lemma str_contains_unfold (n h : string) :
  str_contains n h
    = if String.prefix n h then true
      else match h with
           | EmptyString => false
           | String _ h' => str_contains n h'
           end.
Proof. by destruct h. Qed.

(** [str_contains] is the substring test. *)
Lemma str_contains_spec (n h : string) :
  str_contains n h = true <-> exists a b, h = a +:+ n +:+ b.
Proof.
  induction h as [| c h IH]; rewrite str_contains_unfold.
  - destruct (String.prefix n "") eqn:E.
    + split; [| done]. intros _. apply prefix_app in E as [b E]. by exists "", b.
    + split; [done |]. intros [a [b E']]. destruct a.
      * assert (String.prefix n "" = true) by (apply prefix_app; by exists b).
        congruence.
      * discriminate.
  - destruct (String.prefix n (String c h)) eqn:E.
    + split; [| done]. intros _. apply prefix_app in E as [b E]. by exists "", b.
    + rewrite IH. split.
      * intros [a [b ->]]. by exists (String c a), b.
      * intros [a [b E']]. destruct a as [| c' a].
        -- assert (String.prefix n (String c h) = true)
             by (apply prefix_app; by exists b).
           congruence.
        -- injection E' as -> ->. by exists a, b.
Qed.

Lemma write_probe_result (BASE_DIR : string) (fs : FileSystem) :
  fst (write_probe BASE_DIR fs)
    = if probe_succeeds BASE_DIR fs then Ok tt else Raise OSError.
Proof.
  unfold write_probe, probe_succeeds, probe_bind, with_open, fs_call.
  set (p := path_join BASE_DIR ".write_test").
  destruct (fs (FsOpen p)), (fs (FsWrite p "test")), (fs (FsClose p)),
    (fs (FsRemove p)); reflexivity.
Qed.

Lemma write_probe_trace (BASE_DIR : string) (fs : FileSystem) :
  exists op t, snd (write_probe BASE_DIR fs) = FsCall op :: t.
Proof.
  unfold write_probe, probe_bind, with_open, fs_call.
  set (p := path_join BASE_DIR ".write_test").
  destruct (fs (FsOpen p)), (fs (FsWrite p "test")), (fs (FsClose p)),
    (fs (FsRemove p)); simpl; eexists _, _; reflexivity.
Qed.

(** C9. The detection evaluates the platform marker, the function name, the
    read-only paths and the write-and-delete probe in this order and
    answers "serverless" at the first positive check; the probe is
    positive exactly when one of its file-system calls raises, and a probe
    that succeeds answers "writable". *)
Theorem is_serverless_environment_checks_in_order
    (environ : gmap string string) (BASE_DIR : string) (fs : FileSystem) :
  let '(verdict, evaluated) :=
    first_positive (positive environ BASE_DIR fs) checks_in_order in
  fst (is_serverless_environment environ BASE_DIR fs) = Ok verdict
  /\ checks_of_trace (snd (is_serverless_environment environ BASE_DIR fs))
       = evaluated.
Proof.
  unfold is_serverless_environment, checks_in_order. simpl.
  destruct (String.eqb_spec (lower (default "" (environ !! "VERCEL"))) "1")
    as [E | E].
  - apply (proj1 (lower_is_one _)) in E.
    destruct (environ !! "VERCEL") as [v |] eqn:Ev; simpl in E; [| done].
    subst v. rewrite bool_decide_eq_true_2 by done. done.
  - rewrite bool_decide_eq_false_2.
    2:{ intros Ev. apply E. by rewrite Ev. }
    destruct (environ !! "AWS_LAMBDA_FUNCTION_NAME") as [v |] eqn:Ea.
    + rewrite bool_decide_eq_true_2 by done.
      rewrite bool_decide_eq_true_2 by eauto. done.
    + rewrite (bool_decide_eq_false_2 (None ≠ None)) by (intros Hn; by apply Hn).
      rewrite (bool_decide_eq_false_2 (is_Some None)) by (intros [? ?]; done).
      destruct (str_contains "/var/task" BASE_DIR
                || str_contains "/var/runtime" BASE_DIR)%bool; [done |].
      pose proof (write_probe_result BASE_DIR fs) as Hr.
      destruct (write_probe_trace BASE_DIR fs) as (op & t & Ht).
      destruct (write_probe BASE_DIR fs) as [r tr]. simpl in Hr, Ht. subst.
      destruct (probe_succeeds BASE_DIR fs); simpl; done.
Qed.

(** ** session_stats *)

Lemma insert_newest_first_perm (x : GestureLog) (l : list GestureLog) :
  insert_newest_first x l ≡ₚ x :: l.
Proof.
  induction l as [| y l IH]; simpl; [done |].
  destruct (created_at y <? created_at x); [done |].
  rewrite IH. apply Permutation_swap.
Qed.

Lemma order_by_created_at_desc_perm (l : list GestureLog) :
  order_by_created_at_desc l ≡ₚ l.
Proof.
  induction l as [| x l IH]; simpl; [done |].
  unfold order_by_created_at_desc in *. simpl.
  by rewrite insert_newest_first_perm, IH.
Qed.












(** C10. A statistics request without the [session_id] parameter is
    answered with status 400 and the payload [{'error': 'session_id
    required'}]; no statistics are computed and the store is not changed. *)
Theorem session_stats_missing_parameter (request : HttpRequest) (db : DB) :
  QueryDict_get (GET request) "session_id" = None ->
  session_stats request db
    = (Ok (Response (ErrorData "session_id required") 400), db).
Proof. intros Hget. unfold session_stats. by rewrite Hget. Qed.

(** ** Tables with a unique column *)

Section UniqueColumn.
Context {A : Type} (f : A -> string).

Lemma unique_column_inj (l : list A) (x y : A) :
  NoDup (map f l) -> x ∈ l -> y ∈ l -> f x = f y -> x = y.
Proof.
  induction l as [| a l IH]; simpl; intros Hnd Hx Hy Hf.
  - by apply elem_of_nil in Hx.
  - apply NoDup_cons in Hnd as [Hna Hnd].
    apply elem_of_cons in Hx as [-> | Hx]; apply elem_of_cons in Hy as [-> | Hy].
    + done.
    + exfalso. apply Hna. rewrite Hf. apply list_elem_of_In, in_map.
      by apply list_elem_of_In.
    + exfalso. apply Hna. rewrite <- Hf. apply list_elem_of_In, in_map.
      by apply list_elem_of_In.
    + by apply IH.
Qed.

Lemma filter_absent (l : list A) (s : string) :
  s ∉ map f l -> filter (fun x => f x = s) l = [].
Proof.
  induction l as [| a l IH]; simpl; intros Hn; [done |].
  rewrite filter_cons. destruct (decide (f a = s)) as [E | E].
  - exfalso. apply Hn. rewrite <- E. apply elem_of_cons. by left.
  - apply IH. intros Hin. apply Hn. apply elem_of_cons. by right.
Qed.

Lemma filter_present (l : list A) (r : A) :
  NoDup (map f l) -> r ∈ l -> filter (fun x => f x = f r) l = [r].
Proof.
  induction l as [| a l IH]; simpl; intros Hnd Hr.
  - by apply elem_of_nil in Hr.
  - apply NoDup_cons in Hnd as [Hna Hnd]. rewrite filter_cons.
    apply elem_of_cons in Hr as [-> | Hr].
    + rewrite decide_True by done. f_equal. by apply filter_absent.
    + rewrite decide_False.
      * by apply IH.
      * intros E. apply Hna. rewrite E. apply list_elem_of_In, in_map.
        by apply list_elem_of_In.
Qed.

Lemma elem_of_map_column (l : list A) (s : string) :
  s ∈ map f l <-> exists r, r ∈ l /\ f r = s.
Proof.
  rewrite list_elem_of_In, in_map_iff. split; intros [r [H1 H2]]; exists r.
  - by rewrite list_elem_of_In.
  - by rewrite <- list_elem_of_In.
Qed.

End UniqueColumn.
Section IngestionFacts.
Context `{Builtins}.

Lemma py_float_exn (v : json) (e : exn) :
  py_float v = Raise e -> e <> JSONDecodeError.
Proof.
  destruct v as [| b | z | q | s | l | d]; simpl;
    try (intros E; inversion E; done).
  - destruct (exact_float z); [done |].
    destruct (float_of_int z); intros E; inversion E; done.
  - destruct (float_of_str s); intros E; inversion E; done.
Qed.

Lemma py_int_exn (v : json) (e : exn) :
  py_int v = Raise e -> e <> JSONDecodeError.
Proof.
  destruct v as [| b | z | q | s | l | d]; simpl;
    try (intros E; inversion E; done).
  destruct (int_of_str s); intros E; inversion E; done.
Qed.

Lemma FloatField_prep_exn (v : json) (e : exn) :
  FloatField_prep v = Raise e -> e <> JSONDecodeError.
Proof.
  unfold FloatField_prep, result_bind. intros E. apply (py_float_exn v).
  destruct v; try discriminate; destruct (py_float _); congruence.
Qed.

Lemma IntegerField_prep_exn (v : json) (e : exn) :
  IntegerField_prep v = Raise e -> e <> JSONDecodeError.
Proof.
  unfold IntegerField_prep, result_bind. intros E. apply (py_int_exn v).
  destruct v; try discriminate; destruct (py_int _); congruence.
Qed.

Lemma bind_integer_exn (o : option Z) (e : exn) :
  bind_integer o = Raise e -> e = OverflowError.
Proof. destruct o as [z |]; simpl; [destruct (int64 z) |]; congruence. Qed.

Lemma not_null_exn {A} (o : option A) (e : exn) :
  not_null o = Raise e -> e = IntegrityError.
Proof. destruct o; simpl; congruence. Qed.

(** The INSERT never raises the exception of the JSON decoder. *)
Lemma GestureLog_row_exn (env : Env) (kw : GestureLog_kwargs) (e : exn) :
  GestureLog_row env kw = Raise e -> e <> JSONDecodeError.
Proof.
  unfold GestureLog_row.
  repeat match goal with
         | |- result_bind ?r _ = Raise _ -> _ =>
             let E := fresh "E" in
             destruct r eqn:E; simpl;
             [| intros E'; inversion E'; subst;
                first [ by apply FloatField_prep_exn in E
                      | by apply IntegerField_prep_exn in E
                      | apply bind_integer_exn in E; by rewrite E
                      | apply not_null_exn in E; by rewrite E ] ]
         end.
  intros Hok; discriminate Hok.
Qed.

Lemma log_gesture_post (env : Env) (request : HttpRequest) (db : DB) :
  method request = POST ->
  log_gesture env request db
    = match log_gesture_try env request db with
      | (Ok resp, db') => (Ok resp, db')
      | (Raise JSONDecodeError, db') => (bad_request, db')
      | (Raise e, db') => (server_error e, db')
      end.
Proof.
  intros Hm. unfold log_gesture, csrf_exempt, require_POST, try_except.
  rewrite Hm. destruct (log_gesture_try env request db) as [[resp | e] db'];
    [done |]. by destruct e.
Qed.

Lemma log_gesture_try_dict (env : Env) (request : HttpRequest)
    (d : list (string * json)) (db : DB) :
  body request = JsonText (JDict d) ->
  log_gesture_try env request db
    = (log <~ GestureLog_objects_create env (log_kwargs request d) ;;
       update_session env (JDict d) ;;;
       ret (JsonResponse [("status", "success"); ("log_id", id log)] 200)) db.
Proof. intros Hb. unfold log_gesture_try. rewrite Hb. reflexivity. Qed.

(** A posted JSON object, step by step: the row is built, inserted unless
    its identifier is taken, and then the session is updated. *)
Lemma log_gesture_dict (env : Env) (request : HttpRequest)
    (d : list (string * json)) (db : DB) :
  method request = POST ->
  body request = JsonText (JDict d) ->
  log_gesture env request db
    = match GestureLog_row env (log_kwargs request d) with
      | Raise e => (server_error e, db)
      | Ok row =>
          if bool_decide (id row ∈ map id (gesture_logs db))
          then (server_error IntegrityError, db)
          else
            match update_session env (JDict d)
                    (set_gesture_logs db (gesture_logs db ++ [row])) with
            | (Ok _, db') => (success (id row), db')
            | (Raise e, db') => (server_error e, db')
            end
      end.
Proof.
  intros Hm Hb. rewrite (log_gesture_post env request db Hm).
  rewrite (log_gesture_try_dict env request d db Hb).
  unfold GestureLog_objects_create, bind, lift, insert_gesture_log.
  destruct (GestureLog_row env (log_kwargs request d)) as [row | e] eqn:Er.
  - case_bool_decide; [done |].
    destruct (update_session env (JDict d) _) as [[[] | e] db'] eqn:Eu.
    + done.
    + unfold update_session, try_except in Eu.
      assert (e <> JSONDecodeError) as Hne.
      { intros ->. revert Eu. unfold bind, lift, get, PresentationSession_objects_get.
        destruct (CharField_prep _); [| discriminate].
        destruct (filter _ _) as [| r [| r' l]]; try discriminate.
        unfold PresentationSession_save.
        destruct (session_storable _); simpl; [| discriminate].
        repeat case_bool_decide; discriminate. }
      by destruct e.
  - apply GestureLog_row_exn in Er. by destruct e.
Qed.

Lemma set_sessions_same (db : DB) : set_sessions db (sessions db) = db.
Proof. by destruct db. Qed.

Lemma session_storable_bump (env : Env) (r : PresentationSession) :
  session_storable
    {| ps_id := ps_id r; ps_user := ps_user r;
       ps_session_id := ps_session_id r;
       current_slide := current_slide r;
       total_slides := total_slides r;
       is_fullscreen := is_fullscreen r;
       is_presenting := is_presenting r;
       avg_latency_ms := avg_latency_ms r;
       gesture_count := gesture_count r + 1;
       started_at := started_at r;
       last_activity := datetime_now env;
       ended_at := ended_at r |}
  = countable r.
Proof. reflexivity. Qed.

(** The block "Update session" on a store that meets its constraints: the
    session with the looked-up id, if there is one, gets one more gesture
    and the clock reading, unless its counter is at its end, which raises
    [OverflowError]; nothing else changes. *)
Lemma update_session_spec (env : Env) (d : list (string * json)) (db : DB) :
  NoDup (map ps_id (sessions db)) ->
  NoDup (map ps_session_id (sessions db)) ->
  update_session env (JDict d) db
    = if decide (count_overflows d db) then (Raise OverflowError, db)
      else (Ok tt,
            set_sessions db
              (map (fun r => if decide (session_key d = Some (ps_session_id r))
                             then bump (timezone_now env) r else r)
                   (sessions db))).
Proof.
  intros Hpk Hsid.
  unfold count_overflows.
  unfold update_session, try_except, bind, lift, get,
    PresentationSession_objects_get, session_key, provided_or.
  destruct (CharField_prep (default JNull (dict_lookup d "session_id")))
    as [s |] eqn:Ek.
  2:{ rewrite decide_False.
      2:{ intros Hex. apply Exists_exists in Hex as (r & _ & Hk & _). done. }
      f_equal. rewrite <- (set_sessions_same db) at 1. f_equal.
      symmetry. rewrite <- (map_id (sessions db)) at 2.
      apply map_ext. intros r. by rewrite decide_False. }
  destruct (decide (s ∈ map ps_session_id (sessions db))) as [Hin | Hout].
  - apply elem_of_map_column in Hin as (r & Hr & <-).
    rewrite (filter_present ps_session_id _ r Hsid Hr).
    unfold PresentationSession_save. rewrite session_storable_bump.
    destruct (countable r) eqn:Ec; cbn [negb].
    2:{ rewrite decide_True; [done |].
        apply Exists_exists. by exists r. }
    rewrite decide_False.
    2:{ intros Hex. apply Exists_exists in Hex as (r' & Hr' & Hk & Hc).
        injection Hk as Hk.
        assert (r = r') as <-
          by (apply (unique_column_inj ps_session_id (sessions db)); done).
        congruence. }
    cbn [ps_id ps_session_id].
    rewrite bool_decide_eq_true_2.
    2:{ apply list_elem_of_In, in_map. by apply list_elem_of_In. }
    rewrite bool_decide_eq_false_2.
    2:{ intros Hex. apply Exists_exists in Hex as (r' & Hr' & Hne & Heq).
        apply Hne. f_equal.
        by apply (unique_column_inj ps_session_id (sessions db)). }
    f_equal. f_equal. apply map_ext_in. intros x Hx.
    apply list_elem_of_In in Hx.
    destruct (decide (ps_id x = ps_id r)) as [E | E].
    + assert (x = r) as -> by (by apply (unique_column_inj ps_id (sessions db))).
      by rewrite decide_True.
    + rewrite decide_False; [done |]. intros E'. apply E. f_equal.
      apply (unique_column_inj ps_session_id (sessions db)); congruence.
  - rewrite (filter_absent ps_session_id _ s Hout).
    rewrite decide_False.
    2:{ intros Hex. apply Exists_exists in Hex as (r & Hr & Hk & _).
        injection Hk as ->. apply Hout.
        apply list_elem_of_In, in_map. by apply list_elem_of_In. }
    f_equal. rewrite <- (set_sessions_same db) at 1. f_equal.
    symmetry. rewrite <- (map_id (sessions db)) at 2.
    apply map_ext_in. intros r Hr. rewrite decide_False; [done |].
    intros E. injection E as ->. apply Hout.
    apply list_elem_of_In, in_map. done.
Qed.








Lemma GestureLog_row_id (env : Env) (kw : GestureLog_kwargs) (row : GestureLog) :
  GestureLog_row env kw = Ok row -> id row = uuid4_pk env.
Proof.
  unfold GestureLog_row.
  repeat match goal with
         | |- result_bind ?r _ = Ok _ -> _ => destruct r; simpl; [| discriminate]
         end.
  intros E. by inversion E.
Qed.

Lemma GestureLog_row_session_id (env : Env) (request : HttpRequest)
    (d : list (string * json)) (row : GestureLog) :
  dict_lookup d "session_id" = None ->
  GestureLog_row env (log_kwargs request d) = Ok row ->
  session_id row = "anonymous".
Proof.
  intros Hd. unfold GestureLog_row.
  cbn [log_kwargs kw_session_id].
  assert (provided_or d "session_id" (JStr "anonymous") = JStr "anonymous")
    as -> by (unfold provided_or; by rewrite Hd).
  cbn [CharField_prep not_null].
  repeat match goal with
         | |- result_bind ?r _ = Ok _ -> _ => destruct r; simpl; [| discriminate]
         end.
  intros E. by inversion E.
Qed.



(** C2, amended. For every posted JSON object whose log is created, on a
    store that meets its constraints: if its [session_id] is the id of an
    existing session whose counter is not at its end, the request
    succeeds, that session has its [gesture_count] incremented by exactly
    1 and its [last_activity] advanced to the reading of the clock (the
    clock being ahead of the stored reading), and the other sessions are
    unchanged.  For every posted JSON object whose [session_id] is the id
    of no session, all sessions are unchanged, and the request succeeds
    whenever its log is created. *)
Theorem log_gesture_updates_session
    (env : Env) (request : HttpRequest) (d : list (string * json)) (db : DB) :
  method request = POST ->
  body request = JsonText (JDict d) ->
  db_ok db ->
  let out := log_gesture env request db in
  (forall s r,
     dict_lookup d "session_id" = Some (JStr s) ->
     r ∈ sessions db ->
     ps_session_id r = s ->
     countable r = true ->
     gesture_logs (snd out) <> gesture_logs db ->
     fst out = success (uuid4_pk env)
     /\ sessions (snd out)
        = map (fun x => if decide (ps_session_id x = s)
                        then bump (timezone_now env) x else x)
              (sessions db)
     /\ exists r',
          r' ∈ sessions (snd out)
          /\ ps_id r' = ps_id r
          /\ gesture_count r' = gesture_count r + 1
          /\ last_activity r' = timezone_now env
          /\ (last_activity r < timezone_now env ->
              last_activity r < last_activity r'))
  /\ ((forall r, r ∈ sessions db -> session_key d <> Some (ps_session_id r)) ->
      sessions (snd out) = sessions db
      /\ (gesture_logs (snd out) <> gesture_logs db ->
          fst out = success (uuid4_pk env))).
Proof.
  intros Hm Hb (_ & Hpk & Hsid). cbv zeta.
  rewrite (log_gesture_dict env request d db Hm Hb).
  destruct (GestureLog_row env (log_kwargs request d)) as [row | e] eqn:Er.
  2:{ simpl. split; [intros s r _ _ _ _ Hc; done | intros _; split; [done |]].
      intros Hc; done. }
  rewrite (GestureLog_row_id env _ row Er).
  case_bool_decide as Hin.
  { simpl. split; [intros s r _ _ _ _ Hc; done | intros _; split; [done |]].
    intros Hc; done. }
  rewrite update_session_spec by done.
  match goal with
  | |- context [count_overflows d (set_gesture_logs db ?l)] =>
      change (count_overflows d (set_gesture_logs db l))
        with (count_overflows d db)
  end.
  split.
  - intros s r Hs Hr Hrs Hc _.
    assert (session_key d = Some s) as Hk
      by (unfold session_key, provided_or; by rewrite Hs).
    rewrite decide_False.
    2:{ intros Hex. apply Exists_exists in Hex as (r' & Hr' & Hk' & Hc').
        rewrite Hk in Hk'. injection Hk' as Hk'.
        assert (r = r') as <-
          by (apply (unique_column_inj ps_session_id (sessions db)); congruence).
        congruence. }
    simpl. split; [done |].
    assert (forall x, (if decide (session_key d = Some (ps_session_id x))
                       then bump (timezone_now env) x else x)
                      = (if decide (ps_session_id x = s)
                         then bump (timezone_now env) x else x)) as Hsame.
    { intros x. rewrite Hk.
      destruct (decide (ps_session_id x = s)) as [-> | Hne].
      - by rewrite decide_True.
      - rewrite decide_False; [done | congruence]. }
    split; [apply map_ext, Hsame |].
    exists (bump (timezone_now env) r). split; [| by simpl].
    apply list_elem_of_In, in_map_iff. exists r.
    split; [| by apply list_elem_of_In].
    rewrite Hsame. by rewrite decide_True.
  - intros Hno.
    rewrite decide_False.
    2:{ intros Hex. apply Exists_exists in Hex as (r' & Hr' & Hk' & _).
        by apply (Hno r'). }
    simpl. split; [| done].
    rewrite <- (map_id (sessions db)) at 2. apply map_ext_in. intros r Hr.
    rewrite decide_False; [done |]. apply Hno. by apply list_elem_of_In.
Qed.

(** C7. When the posted JSON object has no key [session_id], the session is
    looked up under the null key, not under "anonymous": every session,
    also one whose id is "anonymous", keeps its [gesture_count] and
    [last_activity]; and a log that the request creates has the session id
    "anonymous". *)
Theorem log_gesture_without_session_id
    (env : Env) (request : HttpRequest) (d : list (string * json)) (db : DB) :
  method request = POST ->
  body request = JsonText (JDict d) ->
  dict_lookup d "session_id" = None ->
  let out := log_gesture env request db in
  session_key d = None
  /\ sessions (snd out) = sessions db
  /\ (gesture_logs (snd out) = gesture_logs db
      \/ exists row, gesture_logs (snd out) = gesture_logs db ++ [row]
                     /\ session_id row = "anonymous"
                     /\ fst out = success (id row)).
Proof.
  intros Hm Hb Hd. cbv zeta.
  assert (session_key d = None) as Hk
    by (unfold session_key, provided_or; by rewrite Hd).
  split; [done |].
  rewrite (log_gesture_dict env request d db Hm Hb).
  destruct (GestureLog_row env (log_kwargs request d)) as [row | e] eqn:Er;
    [| simpl; auto].
  case_bool_decide as Hin; [simpl; auto |].
  assert (forall db1, update_session env (JDict d) db1 = (Ok tt, db1)) as Hu.
  { intros db1.
    unfold update_session, try_except, bind, lift, get,
      PresentationSession_objects_get.
    unfold session_key, provided_or in Hk. by rewrite Hk. }
  rewrite Hu. simpl. split; [done |]. right. exists row.
  split; [done |]. split; [| done].
  by apply (GestureLog_row_session_id env request d).
Qed.

End IngestionFacts.

(** ** The endpoints on the sample data *)

Lemma sample_db_ok : db_ok sample_db.
Proof. repeat split; compute_done. Defined.

Lemma session_stats_missing_parameter_witness :
  QueryDict_get (GET (sample_request GET_ [] NotJson)) "session_id" = None
  /\ session_stats (sample_request GET_ [] NotJson) sample_db
     = (Ok (Response (ErrorData "session_id required") 400), sample_db).
Proof.
  split; [reflexivity |].
  apply session_stats_missing_parameter. reflexivity.
Defined.






Lemma log_gesture_updates_session_witness :
  fst (@log_gesture strict_builtins sample_env
         (sample_request POST [] (JsonText (JDict body_of_s1))) sample_db)
    = success (uuid4_pk sample_env)
  /\ sessions (snd (@log_gesture strict_builtins sample_env
                      (sample_request POST [] (JsonText (JDict body_of_s1)))
                      sample_db))
     = [bump (timezone_now sample_env) (sample_session "pk-1" "s1" 3);
        sample_session "pk-2" "anonymous" 5].
Proof.
  destruct (log_gesture_updates_session (H := strict_builtins) sample_env
              (sample_request POST [] (JsonText (JDict body_of_s1)))
              body_of_s1 sample_db eq_refl eq_refl sample_db_ok) as [Hmatch _].
  destruct (Hmatch "s1" (sample_session "pk-1" "s1" 3))
    as (Hresp & Hsessions & _);
    [reflexivity | repeat constructor | reflexivity | reflexivity
    | discriminate |].
  split; [exact Hresp | exact Hsessions].
Defined.

(** C2 as stated fails: the body carries the id of the existing session
    "s1", and yet the count of that session stays 3, because the row is
    refused (the column [confidence] takes no NULL) and the request ends
    with status 500.  Nor is a created log enough: with the counter of the
    session at the largest 64-bit integer the log is stored, the session
    stays as it was and the request ends with status 500. *)
Lemma log_gesture_null_confidence_counterexample :
  dict_lookup body_with_null_confidence "session_id" = Some (JStr "s1")
  /\ sample_session "pk-1" "s1" 3 ∈ sessions sample_db
  /\ @log_gesture strict_builtins sample_env
       (sample_request POST [] (JsonText (JDict body_with_null_confidence)))
       sample_db
     = (Ok (JsonResponse [("status", "error"); ("message", "IntegrityError")] 500),
        sample_db)
  /\ dict_lookup body_of_s1 "session_id" = Some (JStr "s1")
  /\ sample_session "pk-1" "s1" (2 ^ 63 - 1) ∈ sessions sample_db_full
  /\ @log_gesture strict_builtins sample_env
       (sample_request POST [] (JsonText (JDict body_of_s1))) sample_db_full
     = (Ok (JsonResponse [("status", "error"); ("message", "OverflowError")] 500),
        set_gesture_logs sample_db_full
          (gesture_logs sample_db_full
           ++ [documented_log sample_env
                 (sample_request POST [] (JsonText (JDict body_of_s1)))
                 body_of_s1])).
Proof.
  split; [reflexivity |]. split; [repeat constructor |].
  split; [reflexivity |]. split; [reflexivity |].
  split; [repeat constructor | reflexivity].
Qed.

Lemma log_gesture_without_session_id_witness :
  sessions (snd (@log_gesture strict_builtins sample_env
                   (sample_request POST [] (JsonText (JDict body_without_session)))
                   sample_db))
    = sessions sample_db
  /\ sample_session "pk-2" "anonymous" 5 ∈ sessions sample_db
  /\ exists row,
       gesture_logs (snd (@log_gesture strict_builtins sample_env
                            (sample_request POST []
                               (JsonText (JDict body_without_session)))
                            sample_db))
         = gesture_logs sample_db ++ [row]
       /\ session_id row = "anonymous".
Proof.
  destruct (log_gesture_without_session_id (H := strict_builtins) sample_env
              (sample_request POST [] (JsonText (JDict body_without_session)))
              body_without_session sample_db eq_refl eq_refl eq_refl)
    as (_ & Hs & Hl).
  split; [exact Hs |]. split; [repeat constructor |].
  destruct Hl as [Hsame | (row & Hrow & Hsid & _)].
  - exfalso. revert Hsame. vm_compute. discriminate.
  - exists row. split; [exact Hrow | exact Hsid].
Defined.

(** ** presentation_view *)

Section SessionFacts.
Context `{Builtins}.

Lemma PresentationSession_objects_get_found (r : PresentationSession) (db : DB) :
  NoDup (map ps_session_id (sessions db)) ->
  r ∈ sessions db ->
  PresentationSession_objects_get (JStr (ps_session_id r)) db = (Ok r, db).
Proof.
  intros Hnd Hr. unfold PresentationSession_objects_get. simpl.
  by rewrite (filter_present ps_session_id _ r Hnd Hr).
Qed.

Lemma PresentationSession_objects_get_absent (s : string) (db : DB) :
  s ∉ map ps_session_id (sessions db) ->
  PresentationSession_objects_get (JStr s) db = (Raise DoesNotExist, db).
Proof.
  intros Hs. unfold PresentationSession_objects_get. simpl.
  by rewrite (filter_absent ps_session_id _ s Hs).
Qed.

(** [get_or_create] for an id that a session has: that session, and the
    store as it was. *)
Lemma get_or_create_existing (env : Env) (defaults : SessionDefaults)
    (r : PresentationSession) (db : DB) :
  NoDup (map ps_session_id (sessions db)) ->
  r ∈ sessions db ->
  PresentationSession_objects_get_or_create env (ps_session_id r) defaults db
    = (Ok (r, false), db).
Proof.
  intros Hnd Hr. unfold PresentationSession_objects_get_or_create, try_except, bind.
  by rewrite (PresentationSession_objects_get_found r db Hnd Hr).
Qed.

(** [get_or_create] for an id that no session has, with an unused primary
    key: the new session, appended to the table. *)
Lemma get_or_create_new (env : Env) (s : string) (defaults : SessionDefaults)
    (db : DB) :
  s ∉ map ps_session_id (sessions db) ->
  uuid4_pk env ∉ map ps_id (sessions db) ->
  PresentationSession_objects_get_or_create env s defaults db
    = (Ok (new_session env s defaults, true),
       set_sessions db (sessions db ++ [new_session env s defaults])).
Proof.
  intros Hs Hpk. unfold PresentationSession_objects_get_or_create, try_except, bind.
  rewrite (PresentationSession_objects_get_absent s db Hs).
  unfold PresentationSession_objects_create. cbn [ps_id new_session].
  rewrite bool_decide_eq_false_2 by tauto. reflexivity.
Qed.

Lemma NoDup_map_snoc {A} (f : A -> string) (l : list A) (x : A) :
  NoDup (map f l) -> f x ∉ map f l -> NoDup (map f (l ++ [x])).
Proof.
  intros Hnd Hx. rewrite map_app. simpl. apply NoDup_app.
  split; [done |]. split.
  - intros y Hy Hy'. apply list_elem_of_singleton in Hy'. by subst.
  - apply NoDup_singleton.
Qed.

Lemma db_ok_add_session (db : DB) (row : PresentationSession) :
  db_ok db ->
  ps_id row ∉ map ps_id (sessions db) ->
  ps_session_id row ∉ map ps_session_id (sessions db) ->
  db_ok (set_sessions db (sessions db ++ [row])).
Proof.
  intros (Hl & Hpk & Hsid) Hp Hs. repeat split; simpl.
  - done.
  - by apply NoDup_map_snoc.
  - by apply NoDup_map_snoc.
Qed.

Lemma presentation_view_result (env : Env) (request : HttpRequest) (db : DB) :
  let sid := default (uuid4_view env) (QueryDict_get (GET request) "session_id") in
  presentation_view env request db
    = match PresentationSession_objects_get_or_create env sid
              (view_defaults request) db with
      | (Ok _, db') =>
          (Ok (render "presentation.html"
                 [("session_id", JStr sid);
                  ("is_authenticated", JBool (is_authenticated request))]), db')
      | (Raise e, db') => (Raise e, db')
      end.
Proof.
  cbv zeta. unfold presentation_view, bind.
  by destruct (PresentationSession_objects_get_or_create _ _ _ _) as [[? | ?] ?].
Qed.

(** C6. On a store that meets its constraints: two requests of the page
    with the same [session_id] parameter resolve to the same session row,
    the second creates nothing, and exactly one session has that id; a
    request without the parameter creates a new session under the
    generated UUID, when that UUID and the generated primary key are
    unused. *)
Theorem presentation_view_session_creation (db : DB) :
  db_ok db ->
  (forall env1 env2 request1 request2 s,
     QueryDict_get (GET request1) "session_id" = Some s ->
     QueryDict_get (GET request2) "session_id" = Some s ->
     uuid4_pk env1 ∉ map ps_id (sessions db) ->
     let out1 := presentation_view env1 request1 db in
     let out2 := presentation_view env2 request2 (snd out1) in
     exists row created,
       fst (PresentationSession_objects_get_or_create env1 s
              (view_defaults request1) db) = Ok (row, created)
       /\ fst (PresentationSession_objects_get_or_create env2 s
                (view_defaults request2) (snd out1)) = Ok (row, false)
       /\ filter (fun r => ps_session_id r = s) (sessions (snd out2)) = [row]
       /\ snd out2 = snd out1
       /\ fst out1
          = Ok (render "presentation.html"
                  [("session_id", JStr s);
                   ("is_authenticated", JBool (is_authenticated request1))])
       /\ fst out2
          = Ok (render "presentation.html"
                  [("session_id", JStr s);
                   ("is_authenticated", JBool (is_authenticated request2))])
       /\ db_ok (snd out2))
  /\ (forall env request,
        QueryDict_get (GET request) "session_id" = None ->
        uuid4_view env ∉ map ps_session_id (sessions db) ->
        uuid4_pk env ∉ map ps_id (sessions db) ->
        let out := presentation_view env request db in
        fst out
          = Ok (render "presentation.html"
                  [("session_id", JStr (uuid4_view env));
                   ("is_authenticated", JBool (is_authenticated request))])
        /\ sessions (snd out)
           = sessions db
             ++ [new_session env (uuid4_view env) (view_defaults request)]
        /\ db_ok (snd out)).
Proof.
  intros Hok. split.
  - intros env1 env2 request1 request2 s Hq1 Hq2 Hpk. cbv zeta.
    rewrite !presentation_view_result. cbv zeta. rewrite Hq1, Hq2. cbn [default from_option Datatypes.id].
    destruct (decide (s ∈ map ps_session_id (sessions db))) as [Hin | Hout].
    + apply elem_of_map_column in Hin as (r & Hr & <-).
      destruct Hok as (Hl & Hp & Hs).
      rewrite !(get_or_create_existing _ _ r db Hs Hr). cbn [fst snd].
      exists r, false. repeat split; try done.
      by apply filter_present.
    + rewrite (get_or_create_new env1 s _ db Hout Hpk). cbn [fst snd].
      set (row := new_session env1 s (view_defaults request1)).
      set (db1 := set_sessions db (sessions db ++ [row])).
      assert (db_ok db1) as Hok1 by (by apply db_ok_add_session).
      assert (row ∈ sessions db1) as Hrow.
      { simpl. apply elem_of_app. right. by apply list_elem_of_singleton. }
      destruct Hok1 as (Hl1 & Hp1 & Hs1).
      pose proof (get_or_create_existing env2 (view_defaults request2) row db1
                    Hs1 Hrow) as Hg.
      change (ps_session_id row) with s in Hg. rewrite !Hg. cbn [fst snd].
      exists row, true. repeat split; try done.
      by apply (filter_present ps_session_id (sessions db ++ [row]) row).
  - intros env request Hq Hsid Hpk. cbv zeta.
    rewrite presentation_view_result. cbv zeta. rewrite Hq. cbn [default from_option Datatypes.id].
    rewrite (get_or_create_new env _ _ db Hsid Hpk). cbn [fst snd].
    repeat split; try done.
    + by destruct Hok.
    + apply NoDup_map_snoc; [by destruct Hok as (_ & ? & _) | done].
    + apply NoDup_map_snoc; [by destruct Hok as (_ & _ & ?) | done].
Qed.

End SessionFacts.

Lemma presentation_view_session_creation_witness :
  snd (@presentation_view strict_builtins sample_env
         (sample_request GET_ [("session_id", "s1")] NotJson)
         (snd (@presentation_view strict_builtins sample_env
                 (sample_request GET_ [("session_id", "s1")] NotJson) sample_db)))
    = snd (@presentation_view strict_builtins sample_env
             (sample_request GET_ [("session_id", "s1")] NotJson) sample_db)
  /\ sessions (snd (@presentation_view strict_builtins sample_env
                      (sample_request GET_ [] NotJson) sample_db))
     = sessions sample_db
       ++ [new_session sample_env (uuid4_view sample_env)
             (view_defaults (sample_request GET_ [] NotJson))].
Proof.
  destruct (presentation_view_session_creation (H := strict_builtins)
              sample_db sample_db_ok) as [Hsame Hnew].
  split.
  - destruct (Hsame sample_env sample_env
                (sample_request GET_ [("session_id", "s1")] NotJson)
                (sample_request GET_ [("session_id", "s1")] NotJson) "s1"
                eq_refl eq_refl ltac:(compute_done))
      as (row & created & _ & _ & _ & Heq & _).
    exact Heq.
  - destruct (Hnew sample_env (sample_request GET_ [] NotJson)
                eq_refl ltac:(compute_done) ltac:(compute_done))
      as (_ & Hs & _).
    exact Hs.
Defined.

(** ** The life of a log row *)

Lemma appends_refl (db : DB) : appends db db.
Proof. exists []. by rewrite app_nil_r. Qed.

Lemma appends_trans (db1 db2 db3 : DB) :
  appends db1 db2 -> appends db2 db3 -> appends db1 db3.
Proof.
  intros [n1 H1] [n2 H2]. exists (n1 ++ n2). by rewrite H2, H1, app_assoc.
Qed.

Lemma appends_same_logs (db db' : DB) :
  gesture_logs db' = gesture_logs db -> appends db db'.
Proof. intros E. exists []. by rewrite app_nil_r. Qed.

Lemma append_only_ret {A} (a : A) : append_only (ret a).
Proof. intros db. apply appends_refl. Qed.

Lemma append_only_raise {A} (e : exn) : append_only (@raise A e).
Proof. intros db. apply appends_refl. Qed.

Lemma append_only_lift {A} (r : result A) : append_only (lift r).
Proof. intros db. apply appends_refl. Qed.

Lemma append_only_bind {A B} (c : M A) (k : A -> M B) :
  append_only c -> (forall a, append_only (k a)) -> append_only (bind c k).
Proof.
  intros Hc Hk db. unfold bind. specialize (Hc db).
  destruct (c db) as [[a | e] db1]; simpl in *; [| done].
  eapply appends_trans; [exact Hc | apply Hk].
Qed.

Lemma append_only_try_except {A} (c : M A) (h : exn -> option (M A)) :
  append_only c ->
  (forall e k, h e = Some k -> append_only k) ->
  append_only (try_except c h).
Proof.
  intros Hc Hh db. unfold try_except. specialize (Hc db).
  destruct (c db) as [[a | e] db1]; simpl in *; [done |].
  destruct (h e) as [k |] eqn:Ek; [| done].
  eapply appends_trans; [exact Hc | by apply (Hh e k)].
Qed.

Lemma append_only_for_each {A} (l : list A) (body : A -> M unit) :
  (forall x, append_only (body x)) -> append_only (for_each l body).
Proof.
  intros Hb. induction l as [| x l IH]; simpl.
  - apply append_only_ret.
  - apply append_only_bind; [apply Hb | intros _; apply IH].
Qed.

Create HintDb append_only.
#[local] Hint Resolve append_only_ret append_only_raise append_only_lift
  append_only_for_each : append_only.

Ltac append_only_step :=
  first [ apply append_only_bind; [| intros ?]
        | apply append_only_try_except;
            [| let e := fresh "e" in let k := fresh "k" in
               intros e k; destruct e; intros ?; simplify_eq ]
        | solve [ eauto with append_only ] ].

Section LogLife.
Context `{Builtins}.

Lemma append_only_insert (row : GestureLog) : append_only (insert_gesture_log row).
Proof.
  intros db. unfold insert_gesture_log. case_bool_decide; simpl.
  - apply appends_refl.
  - by exists [row].
Qed.

Lemma append_only_create (env : Env) (kw : GestureLog_kwargs) :
  append_only (GestureLog_objects_create env kw).
Proof.
  unfold GestureLog_objects_create.
  apply append_only_bind; [apply append_only_lift |].
  intros row. apply append_only_insert.
Qed.

Lemma append_only_get (v : json) : append_only (PresentationSession_objects_get v).
Proof.
  intros db. unfold PresentationSession_objects_get.
  destruct (CharField_prep v); [| apply appends_refl].
  destruct (filter _ _) as [| r [| r' l]]; apply appends_refl.
Qed.

Lemma append_only_save (env : Env) (obj : PresentationSession) :
  append_only (PresentationSession_save env obj).
Proof.
  intros db. unfold PresentationSession_save.
  destruct (session_storable obj); cbn [negb]; [| apply appends_refl].
  repeat case_bool_decide; simpl; by apply appends_same_logs.
Qed.

Lemma append_only_session_create (env : Env) (s : string) (defaults : SessionDefaults) :
  append_only (PresentationSession_objects_create env s defaults).
Proof.
  intros db. unfold PresentationSession_objects_create.
  case_bool_decide; simpl; by apply appends_same_logs.
Qed.

#[local] Hint Resolve append_only_insert append_only_create append_only_get
  append_only_save append_only_session_create : append_only.

Lemma append_only_get_or_create (env : Env) (s : string) (defaults : SessionDefaults) :
  append_only (PresentationSession_objects_get_or_create env s defaults).
Proof.
  unfold PresentationSession_objects_get_or_create.
  repeat append_only_step.
Qed.

Lemma append_only_update_session (env : Env) (data : json) :
  append_only (update_session env data).
Proof. unfold update_session. repeat append_only_step. Qed.

#[local] Hint Resolve append_only_get_or_create append_only_update_session
  : append_only.

Lemma append_only_home (request : HttpRequest) : append_only (home request).
Proof. apply append_only_ret. Qed.

Lemma append_only_test_view (request : HttpRequest) : append_only (test_view request).
Proof. apply append_only_ret. Qed.

Lemma append_only_presentation_view (env : Env) (request : HttpRequest) :
  append_only (presentation_view env request).
Proof. unfold presentation_view. repeat append_only_step. Qed.

Lemma append_only_log_gesture (env : Env) (request : HttpRequest) :
  append_only (log_gesture env request).
Proof.
  unfold log_gesture, csrf_exempt, require_POST.
  destruct (method request); try apply append_only_ret.
  apply append_only_try_except.
  - unfold log_gesture_try. repeat append_only_step.
  - intros e k. destruct e; intros ?; simplify_eq; apply append_only_ret.
Qed.

Lemma append_only_session_stats (request : HttpRequest) :
  append_only (session_stats request).
Proof.
  intros db. unfold session_stats.
  destruct (QueryDict_get _ _) as [[| c s] |]; try apply appends_refl.
  destruct (0 <? _); apply appends_refl.
Qed.

(** The actions of the REST resource that read or create. *)
Lemma append_only_viewset (a : Action) (env : Env) (request : HttpRequest) :
  (forall pk, a <> update pk /\ a <> partial_update pk /\ a <> destroy pk) ->
  append_only (GestureLogViewSet a env request).
Proof.
  intros Ha. unfold GestureLogViewSet.
  destruct (is_authenticated request); [| apply append_only_ret].
  destruct a as [| | pk | pk | pk | pk |]; simpl.
  - intros db. apply appends_refl.
  - destruct (validated_data request); repeat append_only_step.
  - intros db. destruct (get_object pk db); apply appends_refl.
  - by destruct (Ha pk) as (? & _).
  - by destruct (Ha pk) as (_ & ? & _).
  - by destruct (Ha pk) as (_ & _ & ?).
  - apply append_only_session_stats.
Qed.

Lemma append_only_handle (env : Env) (samples : nat -> Sample) :
  append_only (handle env samples).
Proof.
  unfold handle.
  apply append_only_bind.
  { intros db. unfold User_objects_get_or_create.
    destruct (filter _ _) as [| u [| u' l]]; simpl; by apply appends_same_logs. }
  intros uc. apply append_only_bind.
  { destruct (snd uc); [| apply append_only_ret].
    intros db. by apply appends_same_logs. }
  intros _. repeat append_only_step.
Qed.

End LogLife.

(** C4, amended. The page views, the ingestion endpoint and, of the REST
    resource, the actions [list], [create], [retrieve] and [session_stats]
    (that is every route but PUT, PATCH and DELETE of a single log), and
    the demo seeder, never modify or remove a log: after any of them the
    logs of before are all there, unchanged, followed by the logs created.
    The REST resource is what updates and deletes logs (see the
    counterexample). *)
Theorem gesture_logs_only_grow `{Builtins} :
  (forall m p view env request,
     urlpatterns m p = Some view ->
     (forall pk, p = path_gesture_log pk -> m = GET_) ->
     append_only (view env request))
  /\ (forall env samples, append_only (handle env samples)).
Proof.
  split; [| apply append_only_handle].
  intros m p view env request Hview Hro.
  destruct p as [| | | | | pk |]; simpl in Hview.
  - simplify_eq. apply append_only_home.
  - simplify_eq. apply append_only_presentation_view.
  - simplify_eq. apply append_only_log_gesture.
  - destruct m; simplify_eq; apply append_only_viewset; intros pk; done.
  - destruct m; simplify_eq; apply append_only_viewset; intros pk; done.
  - rewrite (Hro pk eq_refl) in Hview. simplify_eq.
    apply append_only_viewset. intros pk'; done.
  - simplify_eq. apply append_only_test_view.
Qed.

Lemma gesture_logs_only_grow_witness :
  appends sample_db
    (snd (@log_gesture strict_builtins sample_env
            (sample_request POST [] (JsonText (JDict body_of_s1))) sample_db)).
Proof.
  destruct (gesture_logs_only_grow (H := strict_builtins)) as [Hroutes _].
  apply (Hroutes POST path_log_gesture log_gesture sample_env
           (sample_request POST [] (JsonText (JDict body_of_s1))));
    [reflexivity | intros pk; discriminate].
Defined.

(** C4 as stated fails: the URL table routes DELETE and PATCH of a single
    log to the REST resource, which deletes the row "log-1" for a logged-in
    user, and rewrites its confidence. *)
Lemma gesture_log_rest_counterexample :
  @urlpatterns strict_builtins DELETE (path_gesture_log "log-1")
    = Some (GestureLogViewSet (destroy "log-1"))
  /\ GestureLogViewSet (destroy "log-1") sample_env
       (sample_request_as 1 DELETE None) sample_db
     = (Ok (Response NoData 204),
        set_gesture_logs sample_db
          [sample_log "log-2" "s1" "ok" (3 # 4) 100 1700000020;
           sample_log "log-3" "s1" "fist" (1 # 4) 120 1700000030])
  /\ @urlpatterns strict_builtins PATCH (path_gesture_log "log-1")
     = Some (GestureLogViewSet (partial_update "log-1"))
  /\ gesture_logs
       (snd (GestureLogViewSet (partial_update "log-1") sample_env
               (sample_request_as 1 PATCH (Some (only_confidence 1))) sample_db))
     = [sample_log "log-1" "s1" "fist" 1 80 1700000010;
        sample_log "log-2" "s1" "ok" (3 # 4) 100 1700000020;
        sample_log "log-3" "s1" "fist" (1 # 4) 120 1700000030].
Proof. repeat split; reflexivity. Qed.

(* ===================================================================== *)
(** * Part III: further properties of the code                            *)
(* ===================================================================== *)

(** ** SystemPerformance.accuracy: range *)

(** X1. With counters that are not negative, [accuracy] returns a value
    between 0 and 1. *)
Theorem accuracy_range (self : SystemPerformance) :
  0 <= true_positives self ->
  0 <= false_positives self ->
  0 <= false_negatives self ->
  exists q, accuracy self = Ok q /\ (0 <= q)%Q /\ (q <= 1)%Q.
Proof.
  intros Htp Hfp Hfn. unfold accuracy, truediv.
  set (tp := true_positives self) in *.
  set (d := tp + false_positives self + false_negatives self).
  destruct (Z.eqb_spec d 0) as [E | E].
  - exists 0%Q. split; [done |]. split; [apply Qle_refl | discriminate].
  - exists (inject_Z tp / inject_Z d)%Q. split; [done |].
    assert (0 < d) as Hd by lia.
    assert (0 < inject_Z d)%Q as HdQ.
    { rewrite (Zlt_Qlt 0 d) in Hd. exact Hd. }
    split.
    { apply Qle_shift_div_l; [done |]. rewrite Qmult_0_l.
      rewrite (Zle_Qle 0 tp) in Htp. exact Htp. }
    apply Qle_shift_div_r; [done |]. rewrite Qmult_1_l.
    rewrite <- Zle_Qle. lia.
Qed.

Lemma accuracy_range_witness :
  exists q, accuracy sample_performance = Ok q /\ (0 <= q)%Q /\ (q <= 1)%Q.
Proof.
  apply (accuracy_range sample_performance); simpl; lia.
Defined.

(** ** config/settings.py: the start-up configuration *)

Lemma is_serverless_environment_returns
    (environ : gmap string string) (BASE_DIR : string) (fs : FileSystem) :
  exists b, fst (is_serverless_environment environ BASE_DIR fs) = Ok b.
Proof.
  unfold is_serverless_environment.
  destruct (String.eqb _ "1"); [by exists true |].
  case_bool_decide; [by exists true |].
  destruct (_ || _)%bool; [by exists true |].
  pose proof (write_probe_result BASE_DIR fs) as Hr.
  destruct (write_probe BASE_DIR fs) as [r t]. simpl in *. subst r.
  destruct (probe_succeeds BASE_DIR fs); by eexists.
Qed.

(** X2. The markers decide without the file system: when VERCEL is "1", or
    AWS_LAMBDA_FUNCTION_NAME is set, or the base directory names /var/task
    or /var/runtime, the detection answers "serverless" and makes no
    file-system call. *)
Theorem markers_decide_without_file_system
    (environ : gmap string string) (BASE_DIR : string) (fs : FileSystem) :
  environ !! "VERCEL" = Some "1"
  \/ is_Some (environ !! "AWS_LAMBDA_FUNCTION_NAME")
  \/ str_contains "/var/task" BASE_DIR = true
  \/ str_contains "/var/runtime" BASE_DIR = true ->
  fst (is_serverless_environment environ BASE_DIR fs) = Ok true
  /\ Forall (fun s => forall op, s <> FsCall op)
            (snd (is_serverless_environment environ BASE_DIR fs)).
Proof.
  intros Hm. unfold is_serverless_environment.
  destruct (String.eqb _ "1") eqn:Ev.
  { split; [done |]. by repeat constructor. }
  case_bool_decide as Ha.
  { split; [done |]. by repeat constructor. }
  destruct (str_contains "/var/task" BASE_DIR || str_contains "/var/runtime" BASE_DIR)%bool
    eqn:Ep.
  { split; [done |]. by repeat constructor. }
  exfalso. apply orb_false_iff in Ep as [Ep1 Ep2].
  destruct Hm as [Hv | [Hl | [Hp | Hp]]]; try congruence.
  - rewrite Hv in Ev. discriminate.
  - destruct Hl as [v Hl]. congruence.
Qed.

Lemma markers_decide_without_file_system_witness :
  fst (is_serverless_environment {["VERCEL" := "1"]} "/srv/app" read_only_fs)
    = Ok true.
Proof.
  apply (markers_decide_without_file_system {["VERCEL" := "1"]} "/srv/app"
           read_only_fs).
  left. reflexivity.
Defined.

(** X3. When the detection answers "writable", the probe has run to its
    end: the test file was opened, written, closed and removed, in this
    order, and the removal returned; a writable verdict leaves no test file
    behind. *)
Theorem writable_verdict_removes_test_file
    (environ : gmap string string) (BASE_DIR : string) (fs : FileSystem) :
  fst (is_serverless_environment environ BASE_DIR fs) = Ok false ->
  let p := path_join BASE_DIR ".write_test" in
  snd (is_serverless_environment environ BASE_DIR fs)
    = [ReadEnv "VERCEL"; ReadEnv "AWS_LAMBDA_FUNCTION_NAME"; InspectBaseDir;
       FsCall (FsOpen p); FsCall (FsWrite p "test"); FsCall (FsClose p);
       FsCall (FsRemove p)]
  /\ fs (FsRemove p) = true.
Proof.
  cbv zeta. unfold is_serverless_environment.
  destruct (String.eqb _ "1"); [discriminate |].
  case_bool_decide; [discriminate |].
  destruct (_ || _)%bool; [discriminate |].
  unfold write_probe, probe_bind, with_open, fs_call.
  set (p := path_join BASE_DIR ".write_test").
  destruct (fs (FsOpen p)), (fs (FsWrite p "test")), (fs (FsClose p)),
    (fs (FsRemove p)); simpl; intros E; try discriminate; done.
Qed.

Lemma writable_verdict_removes_test_file_witness :
  writable_fs (FsRemove (path_join "/srv/app" ".write_test")) = true.
Proof.
  apply (writable_verdict_removes_test_file ∅ "/srv/app" writable_fs).
  reflexivity.
Defined.

(** X4. In a serverless environment the module configures nothing that
    writes under the base directory: the only logging handler is the
    console, the root logger uses it alone, and the default database is
    the file /tmp/db.sqlite3 (unless DATABASE_URL names another).  The
    module never fails on the detection. *)
Theorem settings_serverless
    (environ : gmap string string) (BASE_DIR : string) (fs : FileSystem)
    (can_append : string -> bool) (DEBUG : bool) :
  exists s,
    settings environ BASE_DIR fs can_append DEBUG = Ok s
    /\ (IS_SERVERLESS s = true ->
        LOGGING_handlers s = {["console" := console_handler]}
        /\ LOGGING_root_handlers s = ["console"]
        /\ (environ !! "DATABASE_URL" = None ->
            DATABASE s = "sqlite:////tmp/db.sqlite3")).
Proof.
  unfold settings.
  destruct (is_serverless_environment_returns environ BASE_DIR fs) as [b ->].
  simpl. eexists. split; [reflexivity |]. simpl. intros ->.
  split; [| split].
  - reflexivity.
  - reflexivity.
  - intros Hu. unfold database_url. by rewrite Hu.
Qed.

(** X5. The logging configuration is consistent: every handler that the
    root logger names is defined, the console handler always is, and the
    file handler is defined exactly when the environment is not
    serverless, DEBUG is on and the log file can be opened for appending. *)
Theorem logging_configuration_consistent
    (srv DEBUG : bool) (BASE_DIR : string) (can_append : string -> bool) :
  let handlers := logging_handlers srv DEBUG BASE_DIR can_append in
  (forall name, name ∈ root_handlers handlers -> is_Some (handlers !! name))
  /\ handlers !! "console" = Some console_handler
  /\ (is_Some (handlers !! "file")
      <-> srv = false /\ DEBUG = true
          /\ can_append (path_join BASE_DIR "gestures.log") = true)
  /\ (handlers !! "file" = None
      \/ handlers !! "file"
         = Some (file_handler (path_join BASE_DIR "gestures.log"))).
Proof.
  cbv zeta. unfold logging_handlers, final_safety_check, add_file_handler,
    root_handlers.
  destruct srv, DEBUG, (can_append (path_join BASE_DIR "gestures.log")) eqn:Ea;
    simpl; rewrite ?Ea; simpl;
    (split; [intros name Hn; repeat case_bool_decide;
             set_unfold; destruct Hn as [-> | Hn]; try done;
             try (destruct Hn as [-> | []]; done) |]);
    (split; [done |]);
    (split; [split; [intros [h Hh]; try done; simplify_map_eq
                    | intros (? & ? & ?); try done; by eexists] |]);
    auto.
Qed.

(** X6. The "final safety check" of the logging block never removes
    anything: the handlers are the same before and after it. *)
Theorem final_safety_check_is_idle
    (srv DEBUG : bool) (BASE_DIR : string) (can_append : string -> bool) :
  logging_handlers srv DEBUG BASE_DIR can_append
    = add_file_handler srv DEBUG BASE_DIR can_append
        {["console" := console_handler]}.
Proof.
  unfold logging_handlers, final_safety_check, add_file_handler.
  destruct srv; [| done]. simpl.
  rewrite bool_decide_eq_false_2; [done |].
  intros [h Hh]. simplify_map_eq.
Qed.

(** ** log_gesture: what a request can and cannot do *)

Section IngestionFrame.
Context `{Builtins}.

Lemma log_gesture_not_allowed (env : Env) (request : HttpRequest) (db : DB) :
  method request <> POST ->
  log_gesture env request db = (Ok (HttpResponseNotAllowed [POST]), db).
Proof.
  intros Hm. unfold log_gesture, csrf_exempt, require_POST.
  by destruct (method request).
Qed.

Lemma log_gesture_not_object (env : Env) (request : HttpRequest) (db : DB) :
  method request = POST ->
  is_object (body request) = false ->
  log_gesture env request db
    = (match body request with
       | NotJson => bad_request
       | NotText => server_error UnicodeDecodeError
       | JsonText _ => server_error AttributeError
       end, db).
Proof.
  intros Hm Hb. rewrite (log_gesture_post env request db Hm).
  unfold log_gesture_try.
  destruct (body request) as [v | |]; [| done | done].
  by destruct v.
Qed.

(** X7. The endpoint writes only for a POST whose body is a JSON object:
    every other request (another method, a body that is no JSON text, JSON
    that is no object) leaves the whole store as it was. *)
Theorem log_gesture_writes_only_for_posted_objects
    (env : Env) (request : HttpRequest) (db : DB) :
  snd (log_gesture env request db) <> db ->
  method request = POST /\ exists d, body request = JsonText (JDict d).
Proof.
  intros Hch.
  destruct (decide (method request = POST)) as [Hm | Hm].
  2:{ rewrite (log_gesture_not_allowed env request db Hm) in Hch. done. }
  split; [done |].
  destruct (is_object (body request)) eqn:Hb.
  - destruct (body request) as [[] | |]; try discriminate. eauto.
  - rewrite (log_gesture_not_object env request db Hm Hb) in Hch. done.
Qed.

(** X8. On a store that meets its constraints the endpoint never raises
    and ends in one of three ways: it answers with the success payload and
    the store has exactly one more log, whose identifier the payload
    carries; or the session that the body names is at the end of its
    counter, the answer is the error payload of status 500 and the store
    has one more log and nothing else changed; or it answers with another
    response than success and the store is exactly as it was. *)
Theorem log_gesture_outcomes
    (env : Env) (request : HttpRequest) (db : DB) :
  db_ok db ->
  let out := log_gesture env request db in
  (exists row,
     fst out = success (id row)
     /\ id row = uuid4_pk env
     /\ gesture_logs (snd out) = gesture_logs db ++ [row]
     /\ users (snd out) = users db)
  \/ (exists row d,
        body request = JsonText (JDict d)
        /\ count_overflows d db
        /\ fst out = server_error OverflowError
        /\ snd out = set_gesture_logs db (gesture_logs db ++ [row]))
  \/ (snd out = db
      /\ exists resp, fst out = Ok resp
                      /\ forall log_id, Ok resp <> success log_id).
Proof.
  intros (Hl & Hpk & Hsid). cbv zeta.
  destruct (decide (method request = POST)) as [Hm | Hm].
  2:{ rewrite (log_gesture_not_allowed env request db Hm). right. right.
      split; [done |]. eexists. split; [done |]. intros ?; discriminate. }
  destruct (is_object (body request)) eqn:Hb.
  2:{ rewrite (log_gesture_not_object env request db Hm Hb). right. right.
      split; [done |].
      destruct (body request) as [v | |]; eexists; (split; [done |]);
        intros ?; discriminate. }
  destruct (body request) as [[| | | | | | d] | |] eqn:Ebody; try discriminate.
  rewrite (log_gesture_dict env request d db Hm Ebody).
  destruct (GestureLog_row env (log_kwargs request d)) as [row | e] eqn:Er.
  2:{ right. right. split; [done |]. eexists. split; [done |].
      intros ?; destruct e; discriminate. }
  case_bool_decide as Hin.
  { right. right. split; [done |]. eexists. split; [done |].
    intros ?; discriminate. }
  rewrite update_session_spec by done.
  change (count_overflows d (set_gesture_logs db (gesture_logs db ++ [row])))
    with (count_overflows d db).
  destruct (decide (count_overflows d db)) as [Hover | Hcount].
  - right. left. exists row, d. done.
  - left. exists row. simpl.
    repeat split. by apply (GestureLog_row_id env (log_kwargs request d)).
Qed.

(** X9. The value that the view assigns to [last_activity] from
    [datetime.now()] never reaches the store: the column has [auto_now],
    and for every reading of [datetime.now()] the response and the store
    after the request are the same. *)
Theorem log_gesture_ignores_datetime_now
    (env : Env) (t : Z) (request : HttpRequest) (db : DB) :
  log_gesture (with_datetime_now env t) request db = log_gesture env request db.
Proof.
  unfold log_gesture, csrf_exempt, require_POST.
  destruct (method request); reflexivity.
Qed.

(** X10. On a store that meets its constraints the endpoint neither
    creates nor removes a session: after any request the table of sessions
    has the same rows in the same order, each either unchanged or with one
    more gesture and the clock reading as [last_activity]. *)
Theorem log_gesture_keeps_the_sessions
    (env : Env) (request : HttpRequest) (db : DB) :
  db_ok db ->
  Forall2 (fun r r' => r' = r \/ r' = bump (timezone_now env) r)
          (sessions db) (sessions (snd (log_gesture env request db))).
Proof.
  intros Hok.
  assert (forall l : list PresentationSession,
            Forall2 (fun r r' => r' = r \/ r' = bump (timezone_now env) r) l l)
    as Hrefl by (intros l; induction l; constructor; auto).
  destruct (decide (method request = POST)) as [Hm | Hm].
  2:{ rewrite (log_gesture_not_allowed env request db Hm). apply Hrefl. }
  destruct (is_object (body request)) eqn:Hobj.
  2:{ rewrite (log_gesture_not_object env request db Hm Hobj). apply Hrefl. }
  destruct (body request) as [[| | | | | | d] | |] eqn:Hb; try discriminate.
  destruct Hok as (Hl & Hpk & Hsid).
  rewrite (log_gesture_dict env request d db Hm Hb).
  destruct (GestureLog_row env (log_kwargs request d)) as [row' | e];
    [| apply Hrefl].
  case_bool_decide; [apply Hrefl |].
  rewrite update_session_spec by done.
  destruct (decide (count_overflows d _)); [apply Hrefl |]. simpl.
  generalize (sessions db). intros l.
  induction l as [| r l IH]; simpl; constructor; [| done].
  destruct (decide _); auto.
Qed.

End IngestionFrame.

Lemma log_gesture_outcomes_witness :
  exists row,
    gesture_logs (snd (@log_gesture strict_builtins sample_env
                         (sample_request POST [] (JsonText (JDict body_of_s1)))
                         sample_db))
      = gesture_logs sample_db ++ [row].
Proof.
  destruct (log_gesture_outcomes (H := strict_builtins) sample_env
              (sample_request POST [] (JsonText (JDict body_of_s1)))
              sample_db sample_db_ok)
    as [(row & _ & _ & Hl & _) | [(row & d & _ & _ & _ & Hl) | (Hsame & _)]].
  - exists row. exact Hl.
  - exists row. by rewrite Hl.
  - exfalso. revert Hsame. vm_compute. discriminate.
Defined.

Lemma log_gesture_keeps_the_sessions_witness :
  length (sessions (snd (@log_gesture strict_builtins sample_env
                           (sample_request POST [] (JsonText (JDict body_of_s1)))
                           sample_db)))
    = length (sessions sample_db).
Proof.
  symmetry. eapply Forall2_length.
  apply (log_gesture_keeps_the_sessions (H := strict_builtins) sample_env
           (sample_request POST [] (JsonText (JDict body_of_s1)))
           sample_db sample_db_ok).
Defined.

Lemma log_gesture_writes_only_for_posted_objects_witness :
  method (sample_request POST [] (JsonText (JDict body_of_s1))) = POST.
Proof.
  apply (log_gesture_writes_only_for_posted_objects (H := strict_builtins)
           sample_env (sample_request POST [] (JsonText (JDict body_of_s1)))
           sample_db).
  vm_compute. discriminate.
Defined.

(** ** presentation_view: what a page view changes *)

Section PageFrame.
Context `{Builtins}.


Lemma presentation_view_keeps_the_logs
    (env : Env) (request : HttpRequest) (db : DB) :
  gesture_logs (snd (presentation_view env request db)) = gesture_logs db.
Proof.
  rewrite presentation_view_result. cbv zeta.
  unfold PresentationSession_objects_get_or_create, try_except, bind,
    PresentationSession_objects_get, PresentationSession_objects_create, ret, raise.
  cbn [CharField_prep].
  destruct (filter _ (sessions db)) as [| r [| r' l]] eqn:Ef; simpl; auto.
  case_bool_decide; simpl; rewrite ?Ef; simpl; auto.
Qed.

End PageFrame.

(** ** The REST resource and the URL table *)

Section Routes.
Context `{Builtins}.

(** X12. Without a logged-in user the REST resource does nothing: every
    route of api/gesture-logs/ answers 403 and leaves the store as it was,
    and of all routes only the ingestion endpoint can change the logs. *)
Theorem anonymous_requests_reach_the_logs_only_by_ingestion
    (m : Method) (p : Path) (view : Env -> HttpRequest -> M HttpResponse)
    (env : Env) (request : HttpRequest) (db : DB) :
  urlpatterns m p = Some view ->
  request_user request = None ->
  (router m p = Some view ->
   view env request db
     = (Ok (Response
              (DetailData "Authentication credentials were not provided.") 403),
        db))
  /\ (p <> path_log_gesture ->
      gesture_logs (snd (view env request db)) = gesture_logs db).
Proof.
  intros Hview Hanon.
  assert (forall a, GestureLogViewSet a env request db
                    = (Ok (Response
                             (DetailData "Authentication credentials were not provided.")
                             403), db)) as Hgate.
  { intros a. unfold GestureLogViewSet, is_authenticated. by rewrite Hanon. }
  split.
  - intros Hr. destruct p, m; simpl in Hr; simplify_eq; apply Hgate.
  - intros Hp. destruct p; simpl in Hview; try done.
    + simplify_eq. done.
    + simplify_eq. apply presentation_view_keeps_the_logs.
    + destruct m; simplify_eq; by rewrite Hgate.
    + destruct m; simplify_eq; by rewrite Hgate.
    + destruct m; simplify_eq; by rewrite Hgate.
    + simplify_eq. done.
Qed.

End Routes.

Lemma anonymous_requests_reach_the_logs_only_by_ingestion_witness :
  GestureLogViewSet (destroy "log-1") sample_env
    (sample_request DELETE [] NotJson) sample_db
  = (Ok (Response
           (DetailData "Authentication credentials were not provided.") 403),
     sample_db).
Proof.
  apply (anonymous_requests_reach_the_logs_only_by_ingestion
           (H := strict_builtins) DELETE (path_gesture_log "log-1")
           (GestureLogViewSet (destroy "log-1")) sample_env
           (sample_request DELETE [] NotJson) sample_db eq_refl eq_refl).
  reflexivity.
Defined.

(** ** session_stats: the parameter and the aggregates *)

(** X13. The statistics action answers 400 with the fixed payload exactly
    when the [session_id] parameter is missing or empty; an empty
    parameter counts as a missing one. *)
Theorem session_stats_bad_request_iff (request : HttpRequest) (db : DB) :
  fst (session_stats request db)
    = Ok (Response (ErrorData "session_id required") 400)
  <-> QueryDict_get (GET request) "session_id" = None
      \/ QueryDict_get (GET request) "session_id" = Some "".
Proof.
  unfold session_stats.
  destruct (QueryDict_get (GET request) "session_id") as [[| c s] |]; simpl.
  - split; auto.
  - destruct (0 <? _); simpl; split; try discriminate; intros [? | ?]; discriminate.
  - split; auto.
Qed.

Lemma total_count_step (m : gmap string Z) (k : string) :
  total_count (<[k := default 0 (m !! k) + 1]> m) = total_count m + 1.
Proof.
  unfold total_count.
  destruct (m !! k) as [v |] eqn:Ek; simpl.
  - rewrite <- insert_delete_eq.
    rewrite map_fold_insert_L; [| intros; lia | apply lookup_delete_eq].
    rewrite (map_fold_delete_L _ _ k v m); [lia | intros; lia | done].
  - rewrite map_fold_insert_L; [lia | intros; lia | done].
Qed.

Lemma total_count_loop (logs : list GestureLog) (m : gmap string Z) :
  total_count
    (fold_left
       (fun (m : gmap string Z) log =>
          <[gesture_type log := default 0 (m !! gesture_type log) + 1]> m)
       logs m)
  = total_count m + Z.of_nat (length logs).
Proof.
  revert m. induction logs as [| r logs IH]; intros m; simpl fold_left.
  - simpl. lia.
  - rewrite IH, total_count_step. simpl length. lia.
Qed.

(** X15. The response is consistent with itself: the counts of
    [gesture_types] add up to [total_gestures]. *)
Theorem session_stats_counts_add_up
    (request : HttpRequest) (db : DB) (st : Stats) :
  fst (session_stats request db) = Ok (Response (StatsData st) 200) ->
  total_count (gesture_types st) = total_gestures st.
Proof.
  unfold session_stats.
  destruct (QueryDict_get (GET request) "session_id") as [[| c s] |];
    simpl; try discriminate.
  destruct (Z.ltb_spec 0 (Z.of_nat (length (filter (fun r => session_id r = String c s)
                                                   (queryset db))))) as [Hp | Hz];
    simpl; intros E; inversion E; subst; simpl.
  - unfold count_types. rewrite total_count_loop.
    unfold total_count. rewrite map_fold_empty. lia.
  - unfold total_count. rewrite map_fold_empty. lia.
Qed.

Lemma session_stats_counts_add_up_witness :
  exists st,
    fst (session_stats (sample_request GET_ [("session_id", "s1")] NotJson) sample_db)
      = Ok (Response (StatsData st) 200)
    /\ total_count (gesture_types st) = 3.
Proof.
  eexists. split; [reflexivity |].
  rewrite (session_stats_counts_add_up
             (sample_request GET_ [("session_id", "s1")] NotJson) sample_db _ eq_refl).
  reflexivity.
Defined.

(** ** The REST resource: listing, deleting, updating *)

Lemma insert_newest_first_sorted (x : GestureLog) (l : list GestureLog) :
  StronglySorted newer_or_same l ->
  StronglySorted newer_or_same (insert_newest_first x l).
Proof.
  induction 1 as [| y l Hs IH Hy]; simpl.
  - repeat constructor.
  - destruct (Z.ltb_spec (created_at y) (created_at x)) as [Hlt | Hge].
    + constructor; [by constructor |].
      constructor; [unfold newer_or_same; lia |].
      eapply Forall_impl; [exact Hy |]. unfold newer_or_same. intros z Hz. lia.
    + constructor; [done |].
      rewrite insert_newest_first_perm. constructor; [| done].
      unfold newer_or_same. lia.
Qed.

Lemma order_by_created_at_desc_sorted (l : list GestureLog) :
  StronglySorted newer_or_same (order_by_created_at_desc l).
Proof.
  unfold order_by_created_at_desc.
  induction l as [| x l IH]; simpl; [constructor |].
  by apply insert_newest_first_sorted.
Qed.

(** X16. For a logged-in user the listing returns every log of the table
    exactly once, newest first, and changes nothing. *)
Theorem list_returns_every_log_newest_first
    (env : Env) (request : HttpRequest) (db : DB) :
  is_authenticated request = true ->
  exists rows,
    GestureLogViewSet list_ env request db
      = (Ok (Response (LogListData rows) 200), db)
    /\ rows ≡ₚ gesture_logs db
    /\ StronglySorted newer_or_same rows.
Proof.
  intros Ha. unfold GestureLogViewSet. rewrite Ha. simpl.
  eexists. split; [reflexivity |]. split.
  - apply order_by_created_at_desc_perm.
  - apply order_by_created_at_desc_sorted.
Qed.





Lemma list_returns_every_log_newest_first_witness :
  exists rows,
    GestureLogViewSet list_ sample_env (sample_request_as 1 GET_ None) sample_db
      = (Ok (Response (LogListData rows) 200), sample_db)
    /\ rows ≡ₚ gesture_logs sample_db
    /\ StronglySorted newer_or_same rows.
Proof.
  apply (list_returns_every_log_newest_first sample_env
           (sample_request_as 1 GET_ None) sample_db eq_refl).
Defined.




(** ** The constraints of the schema are kept *)

Lemma keeps_ok_ret {A} (a : A) : keeps_ok (ret a).
Proof. by intros db Hok. Qed.

Lemma keeps_ok_raise {A} (e : exn) : keeps_ok (@raise A e).
Proof. by intros db Hok. Qed.

Lemma keeps_ok_lift {A} (r : result A) : keeps_ok (lift r).
Proof. by intros db Hok. Qed.

Lemma keeps_ok_bind {A B} (c : M A) (k : A -> M B) :
  keeps_ok c -> (forall a, keeps_ok (k a)) -> keeps_ok (bind c k).
Proof.
  intros Hc Hk db Hok. unfold bind. specialize (Hc db Hok).
  destruct (c db) as [[a | e] db1]; simpl in *; [| done]. by apply Hk.
Qed.

Lemma keeps_ok_try_except {A} (c : M A) (h : exn -> option (M A)) :
  keeps_ok c ->
  (forall e k, h e = Some k -> keeps_ok k) ->
  keeps_ok (try_except c h).
Proof.
  intros Hc Hh db Hok. unfold try_except. specialize (Hc db Hok).
  destruct (c db) as [[a | e] db1]; simpl in *; [done |].
  destruct (h e) as [k |] eqn:Ek; [| done]. by apply (Hh e k).
Qed.

Lemma keeps_ok_for_each {A} (l : list A) (body : A -> M unit) :
  (forall x, keeps_ok (body x)) -> keeps_ok (for_each l body).
Proof.
  intros Hb. induction l as [| x l IH]; simpl.
  - apply keeps_ok_ret.
  - apply keeps_ok_bind; [apply Hb | intros _; apply IH].
Qed.

Create HintDb keeps_ok.
#[local] Hint Resolve keeps_ok_ret keeps_ok_raise keeps_ok_lift
  keeps_ok_for_each : keeps_ok.

Ltac keeps_ok_step :=
  first [ apply keeps_ok_bind; [| intros ?]
        | apply keeps_ok_try_except;
            [| let e := fresh "e" in let k := fresh "k" in
               intros e k; destruct e; intros ?; simplify_eq ]
        | solve [ eauto with keeps_ok ] ].

(** Rewriting the row with the primary key [p] keeps the session ids
    distinct, when no row with another key has the new id. *)
Lemma rewrite_row_keeps_session_ids
    (p : string) (row : PresentationSession) (l : list PresentationSession) :
  ps_id row = p ->
  NoDup (map ps_id l) ->
  NoDup (map ps_session_id l) ->
  ~ Exists (fun r => ps_id r <> p /\ ps_session_id r = ps_session_id row) l ->
  NoDup (map ps_id (map (fun r => if decide (ps_id r = p) then row else r) l))
  /\ NoDup (map ps_session_id
              (map (fun r => if decide (ps_id r = p) then row else r) l)).
Proof.
  intros Hrow Hpk Hsid Hex. split.
  { assert (map ps_id (map (fun r => if decide (ps_id r = p) then row else r) l)
            = map ps_id l) as ->; [| done].
    rewrite map_map. apply map_ext. intros r.
    destruct (decide (ps_id r = p)); congruence. }
  induction l as [| x l IH]; simpl; [constructor |].
  apply NoDup_cons in Hpk as [Hxp Hpk]. apply NoDup_cons in Hsid as [Hxs Hsid].
  assert (~ Exists (fun r => ps_id r <> p /\ ps_session_id r = ps_session_id row) l)
    as Hex' by (intros E; apply Hex; by right).
  apply NoDup_cons. split; [| by apply IH].
  rewrite map_map, elem_of_map_column. intros (y & Hy & Heq).
  destruct (decide (ps_id x = p)) as [Ex | Ex];
    destruct (decide (ps_id y = p)) as [Ey | Ey].
  - apply Hxp. rewrite Ex, <- Ey. apply elem_of_map_column. eauto.
  - apply Hex'. apply Exists_exists. exists y. split; [done |]. split; done.
  - apply Hex. left. split; [done |]. done.
  - apply Hxs. rewrite <- Heq. apply elem_of_map_column. eauto.
Qed.

Section Constraints.
Context `{Builtins}.

Lemma keeps_ok_insert (row : GestureLog) : keeps_ok (insert_gesture_log row).
Proof.
  intros db (Hl & Hp & Hs). unfold insert_gesture_log.
  case_bool_decide; simpl; [done |].
  repeat split; try done. simpl. by apply NoDup_map_snoc.
Qed.

Lemma keeps_ok_get (v : json) : keeps_ok (PresentationSession_objects_get v).
Proof.
  intros db Hok. unfold PresentationSession_objects_get.
  destruct (CharField_prep v); [| done].
  by destruct (filter _ _) as [| r [| r' l]].
Qed.

Lemma keeps_ok_save (env : Env) (obj : PresentationSession) :
  keeps_ok (PresentationSession_save env obj).
Proof.
  intros db (Hl & Hp & Hs). unfold PresentationSession_save.
  destruct (session_storable obj); cbn [negb]; [| done].
  case_bool_decide as Hin.
  - case_bool_decide as Hex; simpl; [done |].
    repeat split; simpl; try done;
      by apply (rewrite_row_keeps_session_ids (ps_id obj)).
  - case_bool_decide as Hsid; simpl; [done |].
    repeat split; simpl; try done; by apply NoDup_map_snoc.
Qed.

Lemma keeps_ok_session_create (env : Env) (s : string) (defaults : SessionDefaults) :
  keeps_ok (PresentationSession_objects_create env s defaults).
Proof.
  intros db (Hl & Hp & Hs). unfold PresentationSession_objects_create.
  case_bool_decide as Hin; simpl; [done |].
  repeat split; simpl; try done; apply NoDup_map_snoc; simpl; tauto.
Qed.

#[local] Hint Resolve keeps_ok_insert keeps_ok_get keeps_ok_save
  keeps_ok_session_create : keeps_ok.

Lemma keeps_ok_create (env : Env) (kw : GestureLog_kwargs) :
  keeps_ok (GestureLog_objects_create env kw).
Proof. unfold GestureLog_objects_create. repeat keeps_ok_step. Qed.

Lemma keeps_ok_get_or_create (env : Env) (s : string) (defaults : SessionDefaults) :
  keeps_ok (PresentationSession_objects_get_or_create env s defaults).
Proof. unfold PresentationSession_objects_get_or_create. repeat keeps_ok_step. Qed.

Lemma keeps_ok_update_session (env : Env) (data : json) :
  keeps_ok (update_session env data).
Proof. unfold update_session. repeat keeps_ok_step. Qed.

#[local] Hint Resolve keeps_ok_create keeps_ok_get_or_create
  keeps_ok_update_session : keeps_ok.

Lemma keeps_ok_presentation_view (env : Env) (request : HttpRequest) :
  keeps_ok (presentation_view env request).
Proof. unfold presentation_view. repeat keeps_ok_step. Qed.

Lemma keeps_ok_log_gesture (env : Env) (request : HttpRequest) :
  keeps_ok (log_gesture env request).
Proof.
  unfold log_gesture, csrf_exempt, require_POST.
  destruct (method request); try apply keeps_ok_ret.
  apply keeps_ok_try_except.
  - unfold log_gesture_try. repeat keeps_ok_step.
  - intros e k. destruct e; intros ?; simplify_eq; apply keeps_ok_ret.
Qed.

Lemma keeps_ok_viewset (a : Action) (env : Env) (request : HttpRequest) :
  keeps_ok (GestureLogViewSet a env request).
Proof.
  unfold GestureLogViewSet.
  destruct (is_authenticated request); [| apply keeps_ok_ret].
  assert (forall pk r0 db, get_object pk db = Some r0 -> id r0 = pk) as Hget.
  { intros pk r0 db. unfold get_object. intros Hh.
    apply head_Some_elem_of in Hh. by apply list_elem_of_filter in Hh as [? _]. }
  assert (forall pk, keeps_ok (perform env request (update pk))) as Hupd.
  { intros pk db (Hl & Hp & Hs). simpl.
    destruct (get_object pk db) as [r0 |] eqn:Eg; [| done].
    destruct (validated_data request) as [v |]; [| done]. simpl.
    repeat split; simpl; try done.
    assert (map id (map (fun x => if decide (id x = pk)
                                  then apply_validated v r0 else x)
                        (gesture_logs db)) = map id (gesture_logs db)) as ->;
      [| done].
    rewrite map_map. apply map_ext. intros x.
    destruct (decide (id x = pk)); [| done]. simpl.
    rewrite (Hget pk r0 db Eg). done. }
  destruct a as [| | pk | pk | pk | pk |]; simpl.
  - by intros db Hok.
  - destruct (validated_data request); repeat keeps_ok_step.
  - intros db Hok. by destruct (get_object pk db).
  - apply Hupd.
  - apply Hupd.
  - intros db (Hl & Hp & Hs). destruct (get_object pk db); [| done]. simpl.
    repeat split; simpl; try done.
    eapply sublist_NoDup; [exact Hl |].
    generalize (gesture_logs db). intros l.
    induction l as [| x l IH]; simpl; [constructor |].
    rewrite filter_cons. destruct (decide (id x <> pk)); simpl.
    + by apply sublist_skip.
    + by apply sublist_cons.
  - intros db Hok. unfold session_stats.
    destruct (QueryDict_get _ _) as [[| c s] |]; try done.
    by destruct (0 <? _).
Qed.

Lemma keeps_ok_handle (env : Env) (samples : nat -> Sample) :
  keeps_ok (handle env samples).
Proof.
  unfold handle.
  apply keeps_ok_bind.
  { intros db Hok. unfold User_objects_get_or_create.
    by destruct (filter _ _) as [| u [| u' l]]. }
  intros uc. apply keeps_ok_bind.
  { destruct (snd uc); [| apply keeps_ok_ret]. by intros db Hok. }
  intros _. repeat keeps_ok_step.
Qed.

(** X19. Every handler of the URL table, and the demo seeder, keeps the
    constraints of the schema: from a store in which the primary keys of
    the logs and of the sessions and the session ids are distinct, they
    lead to such a store, whatever the request and whether they return
    or raise. *)
Theorem every_handler_keeps_the_constraints :
  (forall m p view env request,
     urlpatterns m p = Some view -> keeps_ok (view env request))
  /\ (forall env samples, keeps_ok (handle env samples)).
Proof.
  split; [| apply keeps_ok_handle].
  intros m p view env request Hview.
  destruct p as [| | | | | pk |]; simpl in Hview.
  - simplify_eq. apply keeps_ok_ret.
  - simplify_eq. apply keeps_ok_presentation_view.
  - simplify_eq. apply keeps_ok_log_gesture.
  - destruct m; simplify_eq; apply keeps_ok_viewset.
  - destruct m; simplify_eq; apply keeps_ok_viewset.
  - destruct m; simplify_eq; apply keeps_ok_viewset.
  - simplify_eq. apply keeps_ok_ret.
Qed.

End Constraints.

Lemma every_handler_keeps_the_constraints_witness :
  db_ok (snd (@log_gesture strict_builtins sample_env
                (sample_request POST [] (JsonText (JDict body_of_s1)))
                sample_db)).
Proof.
  destruct (every_handler_keeps_the_constraints (H := strict_builtins))
    as [Hroutes _].
  apply (Hroutes POST path_log_gesture log_gesture sample_env
           (sample_request POST [] (JsonText (JDict body_of_s1))) eq_refl
           sample_db sample_db_ok).
Defined.

(** ** The duration of a session after a gesture *)

Section Duration.
Context `{Builtins}.

(** X20. After the endpoint answered a gesture for a session that has not
    ended with the success payload, the session has one more gesture and
    the duration that the serializer reports for it is the time from its
    start to the clock reading of that request. *)
Theorem duration_after_gesture
    (env : Env) (request : HttpRequest) (d : list (string * json))
    (r : PresentationSession) (db : DB) (log_id : string) :
  db_ok db ->
  method request = POST ->
  body request = JsonText (JDict d) ->
  dict_lookup d "session_id" = Some (JStr (ps_session_id r)) ->
  r ∈ sessions db ->
  ended_at r = None ->
  fst (log_gesture env request db) = success log_id ->
  exists r',
    r' ∈ sessions (snd (log_gesture env request db))
    /\ ps_id r' = ps_id r
    /\ gesture_count r' = gesture_count r + 1
    /\ get_duration r' = timezone_now env - started_at r.
Proof.
  intros (Hl & Hpk & Hsid) Hm Hb Hd Hr He.
  rewrite (log_gesture_dict env request d db Hm Hb).
  destruct (GestureLog_row env (log_kwargs request d)) as [row | e];
    [| discriminate].
  case_bool_decide; [discriminate |].
  rewrite update_session_spec by done.
  destruct (decide (count_overflows d _)); [discriminate |].
  simpl. intros _.
  exists (bump (timezone_now env) r). split.
  - apply list_elem_of_In, in_map_iff. exists r. split.
    + rewrite decide_True; [done |].
      unfold session_key, provided_or. by rewrite Hd.
    + by apply list_elem_of_In.
  - repeat split. unfold get_duration. simpl. by rewrite He.
Qed.

End Duration.

Lemma duration_after_gesture_witness :
  exists r',
    r' ∈ sessions (snd (@log_gesture strict_builtins sample_env
                          (sample_request POST [] (JsonText (JDict body_of_s1)))
                          sample_db))
    /\ ps_id r' = "pk-1"
    /\ gesture_count r' = 4
    /\ get_duration r' = 60.
Proof.
  apply (duration_after_gesture (H := strict_builtins) sample_env
           (sample_request POST [] (JsonText (JDict body_of_s1))) body_of_s1
           (sample_session "pk-1" "s1" 3) sample_db (uuid4_pk sample_env)
           sample_db_ok eq_refl eq_refl eq_refl);
    [repeat constructor | reflexivity | reflexivity].
Defined.

(** ** The demo seeder *)

Section Seeder.
Context `{Builtins}.

(** The loop of the seeder, for draws whose identifiers are distinct and
    unused and whose frame counts fit the column: it appends the log of
    every turn and raises nothing. *)
Lemma seeder_loop (uid : Z) (sid : string) (samples : nat -> Sample)
    (l : list nat) (db : DB) :
  sid = "demo-session-001" ->
  NoDup (map (fun i => uuid4_pk (r_env (samples i))) l) ->
  (forall i, i ∈ l -> uuid4_pk (r_env (samples i)) ∉ map id (gesture_logs db)) ->
  (forall i, i ∈ l -> int64 (r_frame_count (samples i)) = true) ->
  for_each l
    (fun i =>
       let s := samples i in
       GestureLog_objects_create (r_env s)
         {| kw_user := Some uid;
            kw_session_id := JStr sid;
            kw_gesture_type := JStr (choice gestures (r_gesture s));
            kw_confidence := JFloat (r_confidence s);
            kw_frame_count := JInt (r_frame_count s);
            kw_hand_x := JNull; kw_hand_y := JNull; kw_hand_z := JNull;
            kw_detection_time_ms := JFloat (r_detection s);
            kw_frame_processing_time_ms := JFloat (r_processing s);
            kw_browser := JStr (choice ["Chrome"; "Firefox"; "Safari"] (r_browser s));
            kw_user_agent := JStr "";
            kw_screen_resolution :=
              JStr (choice ["1920x1080"; "1440x900"; "1366x768"] (r_resolution s)) |} ;;;
       ret tt) db
  = (Ok tt,
     set_gesture_logs db
       (gesture_logs db ++ map (fun i => seed_log uid (samples i)) l)).
Proof.
  intros ->. revert db. induction l as [| i l IH]; intros db Hnd Hfresh Hfit.
  - simpl. unfold ret. rewrite app_nil_r. by destruct db.
  - simpl in Hnd. apply NoDup_cons in Hnd as [Hi Hnd].
    simpl for_each. unfold bind at 1. unfold bind at 1.
    unfold GestureLog_objects_create, bind, lift.
    match goal with
    | |- context [GestureLog_row ?e ?kw] =>
        assert (GestureLog_row e kw = Ok (seed_log uid (samples i))) as ->
    end.
    { unfold GestureLog_row. cbn. rewrite (Hfit i) by (by left). reflexivity. }
    unfold insert_gesture_log. cbn [id seed_log].
    rewrite bool_decide_eq_false_2 by (apply Hfresh; by left).
    unfold ret. cbv beta iota.
    rewrite IH; [| done | |].
    + f_equal. simpl. by rewrite <- app_assoc.
    + intros j Hj. simpl. rewrite map_app. simpl.
      intros Hin. apply elem_of_app in Hin as [Hin | Hin].
      * revert Hin. apply Hfresh. by right.
      * apply list_elem_of_singleton in Hin. apply Hi.
        rewrite <- Hin. apply elem_of_map_column.
        exists j. split; [done |]. done.
    + intros j Hj. apply Hfit. by right.
Qed.

(** The first two statements of the seeder, on a table of users with
    distinct names: afterwards there is a user "demo", and only the table
    of users has changed. *)
Lemma seeder_user (K : User * bool -> M unit) (db : DB) :
  NoDup (map username (users db)) ->
  exists u c db1,
    (uc <~ User_objects_get_or_create "demo" "demo@example.com" true ;;
     (if snd uc then User_set_password_save (fst uc) "demo123" else ret tt) ;;;
     K uc) db
    = K (u, c) db1
    /\ gesture_logs db1 = gesture_logs db
    /\ sessions db1 = sessions db
    /\ exists u', u' ∈ users db1 /\ username u' = "demo"
                  /\ user_pk u' = user_pk u.
Proof.
  intros Hnd. unfold bind at 1, User_objects_get_or_create.
  destruct (decide ("demo" ∈ map username (users db))) as [Hin | Hout].
  - apply elem_of_map_column in Hin as (u & Hu & Hname).
    pose proof (filter_present username _ u Hnd Hu) as Hf.
    rewrite Hname in Hf. rewrite Hf.
    exists u, false, db. cbn [snd fst]. unfold bind, ret.
    repeat split; eauto.
  - rewrite (filter_absent username _ "demo" Hout).
    eexists _, true, _. cbn [snd fst]. unfold bind at 1.
    unfold User_set_password_save. cbv beta iota.
    split; [reflexivity |]. repeat split.
    eexists. split.
    + simpl. rewrite map_app. apply elem_of_app. right. simpl.
      rewrite decide_True by done. by left.
    + done.
Qed.

(** Saving an object that was read from a table with distinct keys and
    ids, with counters that fit their columns, rewrites its row and raises
    nothing. *)
Lemma save_existing (env : Env) (obj r : PresentationSession) (db : DB) :
  session_storable obj = true ->
  NoDup (map ps_id (sessions db)) ->
  NoDup (map ps_session_id (sessions db)) ->
  r ∈ sessions db ->
  ps_id obj = ps_id r ->
  ps_session_id obj = ps_session_id r ->
  exists row,
    PresentationSession_save env obj db
      = (Ok tt,
         set_sessions db
           (map (fun x => if decide (ps_id x = ps_id r) then row else x)
                (sessions db)))
    /\ ps_session_id row = ps_session_id r
    /\ gesture_count row = gesture_count obj.
Proof.
  intros Hfit Hpk Hsid Hr Hp Hs. unfold PresentationSession_save.
  rewrite Hfit. cbn [negb].
  rewrite bool_decide_eq_true_2.
  2:{ rewrite Hp. apply elem_of_map_column. eauto. }
  rewrite bool_decide_eq_false_2.
  2:{ intros Hex. apply Exists_exists in Hex as (r' & Hr' & Hne & Heq).
      apply Hne. rewrite Hp. f_equal.
      apply (unique_column_inj ps_session_id (sessions db)); congruence. }
  rewrite Hp. eexists. split; [reflexivity |]. simpl. split; done.
Qed.

(** X21. On a store that meets its constraints, whose user names are
    distinct and whose sessions have counters that fit their columns, with
    fifty distinct unused identifiers drawn for the logs, frame counts
    drawn between 5 and 10 (and an unused key for the session, should it
    have to be created), the seeder returns.  Afterwards there is a user
    named "demo"; the table of logs has grown by exactly the fifty logs of
    the draws, all of the session "demo-session-001" and with the key of
    that user; and that session has a gesture count of 50, whatever the
    count and the logs were before. *)
Theorem handle_seeds_fifty_logs
    (env : Env) (samples : nat -> Sample) (db : DB) :
  db_ok db ->
  NoDup (map username (users db)) ->
  Forall (fun r => session_storable r = true) (sessions db) ->
  NoDup (map (fun i => uuid4_pk (r_env (samples i))) (seq 0 50)) ->
  (forall i, i ∈ seq 0 50 ->
             uuid4_pk (r_env (samples i)) ∉ map id (gesture_logs db)) ->
  (forall i, i ∈ seq 0 50 -> 5 <= r_frame_count (samples i) <= 10) ->
  "demo-session-001" ∈ map ps_session_id (sessions db)
  \/ uuid4_pk env ∉ map ps_id (sessions db) ->
  exists db' u,
    handle env samples db = (Ok tt, db')
    /\ u ∈ users db'
    /\ username u = "demo"
    /\ gesture_logs db'
       = gesture_logs db
         ++ map (fun i => seed_log (user_pk u) (samples i)) (seq 0 50)
    /\ (exists r, r ∈ sessions db'
                  /\ ps_session_id r = "demo-session-001"
                  /\ gesture_count r = 50).
Proof.
  intros (Hl & Hpk & Hsid) Hnames Hfit Hdraws Hfresh Hframes Hsession.
  unfold handle.
  edestruct (seeder_user) as (u & c & db1 & -> & Hl1 & Hs1 & Huser);
    [exact Hnames |].
  destruct Huser as (u' & Hu' & Hname & Hkey).
  cbn [fst snd].
  (* the session *)
  assert (exists session created db2,
            PresentationSession_objects_get_or_create env "demo-session-001"
              {| d_user := Some (user_pk u); d_total_slides := 5;
                 d_is_presenting := true; d_gesture_count := 0;
                 d_avg_latency_ms := 171 # 2 |} db1
            = (Ok (session, created), db2)
            /\ ps_session_id session = "demo-session-001"
            /\ session ∈ sessions db2
            /\ session_storable session = true
            /\ NoDup (map ps_id (sessions db2))
            /\ NoDup (map ps_session_id (sessions db2))
            /\ gesture_logs db2 = gesture_logs db
            /\ users db2 = users db1)
    as (session & created & db2 & Hgoc & Hsname & Hsin & Hsfit & Hpk2 & Hsid2
        & Hl2 & Hu2).
  { destruct (decide ("demo-session-001" ∈ map ps_session_id (sessions db1)))
      as [Hin | Hout].
    - apply elem_of_map_column in Hin as (r & Hr & Hrname).
      exists r, false, db1.
      assert (NoDup (map ps_session_id (sessions db1))) as Hsid1
        by (by rewrite Hs1).
      pose proof (get_or_create_existing env
                    {| d_user := Some (user_pk u); d_total_slides := 5;
                       d_is_presenting := true; d_gesture_count := 0;
                       d_avg_latency_ms := 171 # 2 |} r db1 Hsid1 Hr) as Hg.
      rewrite Hrname in Hg. rewrite Hg.
      rewrite Hs1. repeat split; try done.
      + by rewrite <- Hs1.
      + rewrite Forall_forall in Hfit. apply Hfit. by rewrite <- Hs1.
    - assert (uuid4_pk env ∉ map ps_id (sessions db1)) as Hfp.
      { rewrite Hs1. destruct Hsession as [Hin | ?]; [| done].
        exfalso. apply Hout. by rewrite Hs1. }
      rewrite (get_or_create_new env _ _ db1 Hout Hfp).
      eexists _, true, _. split; [reflexivity |]. simpl.
      repeat split; try done.
      + apply elem_of_app. right. by left.
      + apply NoDup_map_snoc; [by rewrite Hs1 | done].
      + apply NoDup_map_snoc; [by rewrite Hs1 | done]. }
  unfold bind at 1. rewrite Hgoc. cbn [fst snd].
  (* the loop *)
  unfold bind at 1.
  match goal with
  | |- context [for_each ?l ?b db2] =>
      assert (for_each l b db2
              = (Ok tt,
                 set_gesture_logs db2
                   (gesture_logs db2
                    ++ map (fun i => seed_log (user_pk u) (samples i)) l)))
        as Hloop
        by (apply (seeder_loop (user_pk u) (ps_session_id session) samples);
            [exact Hsname | exact Hdraws | by rewrite Hl2
            | intros i Hi; specialize (Hframes i Hi); unfold int64; lia])
  end.
  rewrite Hloop.
  (* the count *)
  set (db3 := set_gesture_logs db2 _).
  edestruct (save_existing env) with (r := session) (db := db3)
    as (row & -> & Hrow & Hcount);
    [| exact Hpk2 | exact Hsid2 | exact Hsin | | |].
  { revert Hsfit. unfold session_storable. cbn [current_slide total_slides
      gesture_count]. rewrite !andb_true_iff. intros [[? ?] _]. done. }
  { reflexivity. }
  { reflexivity. }
  exists (set_sessions db3
            (map (fun x => if decide (ps_id x = ps_id session) then row else x)
                 (sessions db3))), u'.
  split; [reflexivity |]. simpl. rewrite Hl2, Hu2, Hkey.
  split; [done |]. split; [done |]. split; [done |].
  exists row. split; [| by rewrite Hrow, Hcount].
  apply list_elem_of_In, in_map_iff. exists session. split.
  - by rewrite decide_True.
  - by apply list_elem_of_In.
Qed.

End Seeder.

Lemma handle_seeds_fifty_logs_witness :
  exists db',
    @handle strict_builtins sample_env sample_draws sample_db = (Ok tt, db')
    /\ length (gesture_logs db') = 53%nat.
Proof.
  destruct (handle_seeds_fifty_logs (H := strict_builtins) sample_env
              sample_draws sample_db sample_db_ok)
    as (db' & u & Hh & _ & _ & Hlogs & _);
    [compute_done | repeat constructor | compute_done | | | right; compute_done |].
  - intros i Hi. apply elem_of_seq in Hi.
    assert (Forall (fun i => uuid4_pk (r_env (sample_draws i))
                             ∉ map id (gesture_logs sample_db)) (seq 0 50))
      as Hall by compute_done.
    rewrite Forall_forall in Hall. apply Hall. apply elem_of_seq. lia.
  - intros i _. simpl. lia.
  - exists db'. split; [exact Hh |]. rewrite Hlogs.
    rewrite length_app, length_map, length_seq. reflexivity.
Defined.
